(** * DocumentService: validation, upload, deletion, classification, export

    A shallow embedding of the [DocumentService] class (the document
    ingestion and export pipeline) and the properties its specification
    states about it.

    JavaScript strings are modelled as [string] (sequences of 8-bit
    characters), file contents as [list byte], the Supabase backend as an
    explicit world (a table keyed by id, a bucket keyed by object name, and
    the log of the calls issued to it), and [async] methods as functions
    in a state-and-exception monad over that world. What the backend, the
    clock, the random generator and the network answer is an input of
    every method (an [Env.t]): a backend call resolves to [{ data }],
    resolves to [{ error }], or rejects, as the environment decides. *)

From Stdlib Require Import ZArith NArith List String Ascii Bool Lia DecimalString DecimalN.
From stdpp Require Import gmap strings list.
Import ListNotations.
Open Scope string_scope.

(** ** JavaScript string primitives *)

Module Js.

(** [String.prototype.toLowerCase], on the ASCII range: [A]-[Z] become
    [a]-[z], every other character stays as it is. *)
Definition lower_char (c : ascii) : ascii :=
  let n := nat_of_ascii c in
  if (65 <=? n)%nat && (n <=? 90)%nat then ascii_of_nat (n + 32) else c.

Fixpoint toLowerCase (s : string) : string :=
  match s with
  | EmptyString => EmptyString
  | String c s' => String (lower_char c) (toLowerCase s')
  end.

(** [s.startsWith(p)] *)
Definition startsWith (s p : string) : bool := String.prefix p s.

(** [s.includes(p)]: [p] starts at some position of [s]. *)
Fixpoint includes (s p : string) : bool :=
  startsWith s p ||
  match s with
  | EmptyString => false
  | String _ s' => includes s' p
  end.

(** [s.split(c)] for a one-character separator: never the empty list. *)
Fixpoint split (c : ascii) (s : string) : list string :=
  match s with
  | EmptyString => [EmptyString]
  | String a s' =>
      if Ascii.eqb a c then EmptyString :: split c s'
      else match split c s' with
           | seg :: segs => String a seg :: segs
           | [] => [String a EmptyString]
           end
  end.

(** [xs.pop()]: the last element, [undefined] on the empty array. *)
Definition pop {A} (xs : list A) : option A := last xs.

(** Truthiness of a string: the empty string is falsy. *)
Definition truthy (s : string) : bool := negb (String.eqb s "").

(** [a || b] on possibly-undefined strings. *)
Definition or_else (a : option string) (b : string) : string :=
  match a with
  | Some s => if truthy s then s else b
  | None => b
  end.

(** [String.fromCharCode(...bytes)] on a [Uint8Array]. *)
Definition fromCharCode (bytes : list Byte.byte) : string :=
  string_of_list_byte bytes.

(** [String(n)] for a non-negative integer, as in a template literal. *)
Definition decimal (n : N) : string := NilEmpty.string_of_uint (N.to_uint n).

End Js.

(** ** Data model *)

(** The [DocumentType] of [@/types]: the keys of [typeMap] and the values
    [detectDocumentType] returns. *)
Inductive DocumentType :=
  TDS | ESR | MSDS | LEED | Installation | Warranty | Acoustic | PartSpec.

(** The string a [DocumentType] is, as in [`${type} Document`]. *)
Definition DocumentType_name (t : DocumentType) : string :=
  match t with
  | TDS => "TDS" | ESR => "ESR" | MSDS => "MSDS" | LEED => "LEED"
  | Installation => "Installation" | Warranty => "Warranty"
  | Acoustic => "Acoustic" | PartSpec => "PartSpec"
  end.

(** The browser [File]: [size] is what [file.size] reports, [content] what
    the file holds, and [readable] whether reading it succeeds. *)
Module File.
Record t := mk {
  name : string;
  type : string;
  size : N;
  content : list Byte.byte;
  readable : bool;
}.

(** [file.slice(lo, hi).arrayBuffer()]: [None] when the read rejects. *)
Definition slice_arrayBuffer (f : t) (lo hi : nat) : option (list Byte.byte) :=
  if readable f then Some (firstn (hi - lo) (skipn lo (content f))) else None.

(** A file object as the browser builds it: its size is that of its content. *)
Definition well_formed (f : t) : Prop := size f = N.of_nat (length (content f)).
End File.

(** The row sent to the [documents] table: [Omit<Document, 'id' | 'fileData'>]. *)
Module NewDocument.
Record t := mk {
  name : string;
  description : string;
  filename : string;
  url : string;
  size : N;
  type : DocumentType;
  required : bool;
  products : list string;
  product_type : string;
}.
End NewDocument.

(** A row of the [documents] table, the [Document] of [@/types]: the
    fields [uploadDocument] sends, the [id] the lookups select by and the
    [created_at] the list queries order by. *)
Module Document.
Record t := mk {
  id : string;
  name : string;
  description : string;
  filename : string;
  url : string;
  size : N;
  type : DocumentType;
  required : bool;
  products : list string;
  product_type : string;
  created_at : string;
}.

(** The row the database stores for an insert: the fields sent, the id
    and the creation time it assigns. *)
Definition of_new (id created_at : string) (d : NewDocument.t) : t :=
  {| id := id;
     name := NewDocument.name d;
     description := NewDocument.description d;
     filename := NewDocument.filename d;
     url := NewDocument.url d;
     size := NewDocument.size d;
     type := NewDocument.type d;
     required := NewDocument.required d;
     products := NewDocument.products d;
     product_type := NewDocument.product_type d;
     created_at := created_at |}.
End Document.

(** ** The classifier *)

Definition detectDocumentType (filename : string) : DocumentType :=
  let lower := Js.toLowerCase filename in
  if Js.includes lower "tds" || Js.includes lower "technical data" then TDS
  else if Js.includes lower "esr" || Js.includes lower "evaluation report" then ESR
  else if Js.includes lower "msds" || Js.includes lower "safety data" then MSDS
  else if Js.includes lower "leed" then LEED
  else if Js.includes lower "installation" || Js.includes lower "install" then Installation
  else if Js.includes lower "warranty" then Warranty
  else if Js.includes lower "acoustic" || Js.includes lower "esl" then Acoustic
  else if Js.includes lower "spec" || Js.includes lower "3-part" then PartSpec
  else TDS.

(** [filename.replace(/\.pdf$/i, '')] *)
Fixpoint strip_pdf_extension (filename : string) : string :=
  match filename with
  | EmptyString => EmptyString
  | String c rest =>
      if String.eqb (Js.toLowerCase filename) ".pdf" then EmptyString
      else String c (strip_pdf_extension rest)
  end.

Definition typeMap (t : DocumentType) : string :=
  match t with
  | TDS => "Technical Data Sheet"
  | ESR => "Evaluation Report"
  | MSDS => "Material Safety Data Sheet"
  | LEED => "LEED Credit Guide"
  | Installation => "Installation Guide"
  | Warranty => "Limited Warranty"
  | Acoustic => "Acoustical Performance"
  | PartSpec => "3-Part Specifications"
  end.

Definition extractDocumentName (filename : string) (type : DocumentType) : string :=
  let name := strip_pdf_extension filename in
  Js.or_else (Some (typeMap type)) name.

(** ** The validator *)

Record Verdict := { valid : bool; error : option string }.

Definition accept : Verdict := {| valid := true; error := None |}.
Definition reject (reason : string) : Verdict := {| valid := false; error := Some reason |}.

Definition MAX_SIZE : N := 50 * 1024 * 1024.

Definition validatePDF (file : File.t) : Verdict :=
  if negb (String.eqb (File.type file) "application/pdf") then
    reject "File must be a PDF document"
  else if (MAX_SIZE <? File.size file)%N then
    reject "File size exceeds 50MB limit"
  else if (File.size file <? 1024)%N then
    reject "File is too small to be a valid PDF"
  else
    match File.slice_arrayBuffer file 0 5 with
    | Some bytes =>
        let signature := Js.fromCharCode bytes in
        if negb (Js.startsWith signature "%PDF") then
          reject "File does not appear to be a valid PDF"
        else accept
    | None => reject "Failed to read file"
    end.

(** ** The backend and the environment *)

(** A thrown JavaScript value: [new Error(message)]. *)
Inductive Exn := Error (message : string).

(** How a call of an [async] method completes. *)
Inductive Completion (A : Type) :=
| Returned (a : A)
| Thrown (e : Exn).
Arguments Returned {A} a.
Arguments Thrown {A} e.

(** The calls the service issues to the storage bucket, to the table and
    to the network. *)
Inductive Call :=
| StorageUpload (key : string) (body : list Byte.byte)
| StorageGetPublicUrl (key : string)
| StorageRemove (keys : list string)
| DbSelectAll
| DbSelectById (id : string)
| DbInsert (row : NewDocument.t)
| DbDelete (id : string)
| HttpFetch (url : string).

(** The two ways a backend call fails: it resolves to [{ error }], or its
    promise rejects. *)
Inductive Fault :=
| Refuse (message : string)
| Reject (e : Exn).

(** What [fetch(url)], [response.blob()] and the [FileReader] yield. *)
Inductive ReaderOutcome :=
| ReaderError (e : Exn)
| ReaderResult (dataUrl : string).

Inductive BodyOutcome :=
| BodyRejects (e : Exn)
| BodyBlob (reader : ReaderOutcome).

Inductive FetchOutcome :=
| FetchRejects (e : Exn)
| FetchResponse (ok : bool) (body : BodyOutcome).

(** The progress callback: [None] when it returns, [Some e] when it throws. *)
Definition Observer := N -> option Exn.

(** Everything the environment decides: the clock, the random suffix, the
    id and creation time the database assigns, which backend calls fail
    and how, and what the network answers to the fetch issued for the
    [i]-th document of an export. A call that does not fail has its effect
    on the world. *)
Module Env.
Record t := mk {
  now : N;
  random : string;
  new_id : string;
  timestamp : string;
  upload_fault : string -> option Fault;
  publicUrl : string -> option string;
  remove_fault : list string -> option Fault;
  insert_fault : NewDocument.t -> option Fault;
  select_fault : option Fault;
  select_by_id_fault : string -> option Fault;
  delete_fault : string -> option Fault;
  fetch : nat -> string -> FetchOutcome;
}.
End Env.

(** The [documents] table (primary key [id]), the [documents] bucket, the
    calls issued so far (oldest first) and the lines of [console.error]. *)
Module World.
Record t := mk {
  documents : gmap string Document.t;
  bucket : gmap string (list Byte.byte);
  calls : list Call;
  console : list (string * Exn);
}.

Definition issue (c : Call) (w : t) : t :=
  mk (documents w) (bucket w) (calls w ++ [c]) (console w).
Definition set_documents (d : gmap string Document.t) (w : t) : t :=
  mk d (bucket w) (calls w) (console w).
Definition set_bucket (b : gmap string (list Byte.byte)) (w : t) : t :=
  mk (documents w) b (calls w) (console w).
Definition print (line : string) (e : Exn) (w : t) : t :=
  mk (documents w) (bucket w) (calls w) (console w ++ [(line, e)]).
End World.

(** ** The monad of [async] methods *)

Definition M (A : Type) : Type := World.t -> Completion A * World.t.

#[global] Instance M_ret : MRet M := fun A a w => (Returned a, w).
#[global] Instance M_bind : MBind M := fun A B k m w =>
  match m w with
  | (Returned a, w') => k a w'
  | (Thrown e, w') => (Thrown e, w')
  end.

Definition throw {A} (e : Exn) : M A := fun w => (Thrown e, w).

(** [try { body } catch (e) { handler }] *)
Definition try_catch {A} (body : M A) (handler : Exn -> M A) : M A := fun w =>
  match body w with
  | (Returned a, w') => (Returned a, w')
  | (Thrown e, w') => handler e w'
  end.

Definition console_error (line : string) (e : Exn) : M unit :=
  fun w => (Returned tt, World.print line e w).

(** [if (onProgress) onProgress(n)] *)
Definition notify (onProgress : option Observer) (n : N) : M unit :=
  match onProgress with
  | None => mret tt
  | Some observer =>
      match observer n with
      | None => mret tt
      | Some e => throw e
      end
  end.

(** The answer of a backend call: the [error] of [{ data, error }] is
    [Failure], its [data] is [Data]. *)
Inductive Response (A : Type) :=
| Data (a : A)
| Failure (message : string).
Arguments Data {A} a.
Arguments Failure {A} message.

Section Backend.
Context (env : Env.t).

(** [supabase.storage.from('documents').upload(key, file)] *)
Definition storage_upload (key : string) (file : File.t) : M (Response unit) := fun w =>
  let w := World.issue (StorageUpload key (File.content file)) w in
  match Env.upload_fault env key with
  | Some (Reject e) => (Thrown e, w)
  | Some (Refuse m) => (Returned (Failure m), w)
  | None => (Returned (Data tt),
             World.set_bucket (<[key := File.content file]> (World.bucket w)) w)
  end.

(** [supabase.storage.from('documents').getPublicUrl(key)]: the
    [publicUrlData?.publicUrl] read from its answer. *)
Definition storage_getPublicUrl (key : string) : M (option string) := fun w =>
  (Returned (Env.publicUrl env key), World.issue (StorageGetPublicUrl key) w).

(** [supabase.storage.from('documents').remove(keys)] *)
Definition storage_remove (keys : list string) : M (Response unit) := fun w =>
  let w := World.issue (StorageRemove keys) w in
  match Env.remove_fault env keys with
  | Some (Reject e) => (Thrown e, w)
  | Some (Refuse m) => (Returned (Failure m), w)
  | None => (Returned (Data tt),
             World.set_bucket (foldr delete (World.bucket w) keys) w)
  end.

(** [from('documents').insert([row]).select().single()] *)
Definition db_insert (row : NewDocument.t) : M (Response Document.t) := fun w =>
  let w := World.issue (DbInsert row) w in
  match Env.insert_fault env row with
  | Some (Reject e) => (Thrown e, w)
  | Some (Refuse m) => (Returned (Failure m), w)
  | None =>
      let stored := Document.of_new (Env.new_id env) (Env.timestamp env) row in
      (Returned (Data stored),
       World.set_documents (<[Env.new_id env := stored]> (World.documents w)) w)
  end.

(** [from('documents').select('*').eq('id', id).maybeSingle()] *)
Definition db_select_by_id (id : string) : M (Response (option Document.t)) := fun w =>
  let w := World.issue (DbSelectById id) w in
  match Env.select_by_id_fault env id with
  | Some (Reject e) => (Thrown e, w)
  | Some (Refuse m) => (Returned (Failure m), w)
  | None => (Returned (Data (World.documents w !! id)), w)
  end.

(** [from('documents').delete().eq('id', id)] *)
Definition db_delete (id : string) : M (Response unit) := fun w =>
  let w := World.issue (DbDelete id) w in
  match Env.delete_fault env id with
  | Some (Reject e) => (Thrown e, w)
  | Some (Refuse m) => (Returned (Failure m), w)
  | None => (Returned (Data tt),
             World.set_documents (delete id (World.documents w)) w)
  end.

(** Newest first: the order of [.order('created_at', { ascending: false })]. *)
Definition created_before (a b : Document.t) : bool :=
  match String.compare (Document.created_at a) (Document.created_at b) with
  | Lt => true
  | _ => false
  end.

Fixpoint insert_newest_first (d : Document.t) (sorted : list Document.t) : list Document.t :=
  match sorted with
  | [] => [d]
  | d' :: rest =>
      if created_before d d' then d' :: insert_newest_first d rest
      else d :: sorted
  end.

Definition newest_first (rows : list Document.t) : list Document.t :=
  foldr insert_newest_first [] rows.

(** [from('documents').select('*').order('created_at', { ascending: false })] *)
Definition db_select_all : M (Response (list Document.t)) := fun w =>
  let w := World.issue DbSelectAll w in
  match Env.select_fault env with
  | Some (Reject e) => (Thrown e, w)
  | Some (Refuse m) => (Returned (Failure m), w)
  | None => (Returned (Data (newest_first (snd <$> map_to_list (World.documents w)))), w)
  end.

(** [await fetch(url)] for the [i]-th document of an export. *)
Definition http_fetch (i : nat) (url : string) : M (bool * BodyOutcome) := fun w =>
  let w := World.issue (HttpFetch url) w in
  match Env.fetch env i url with
  | FetchRejects e => (Thrown e, w)
  | FetchResponse ok body => (Returned (ok, body), w)
  end.

(** [await response.blob()] *)
Definition response_blob (body : BodyOutcome) : M ReaderOutcome :=
  match body with
  | BodyRejects e => throw e
  | BodyBlob reader => mret reader
  end.
End Backend.

(** ** The service *)

(** An entry of the export: [{ ...doc, fileData }]. *)
Record Materialized := { doc : Document.t; fileData : option string }.

Section DocumentService.
Context (env : Env.t).

Definition getAllDocuments : M (list Document.t) :=
  try_catch
    (r ← db_select_all env;
     match r with
     | Failure message => throw (Error message)
     | Data data => mret data
     end)
    (fun error => console_error "Failed to load documents:" error;; throw error).

Definition getDocument (id : string) : M (option Document.t) :=
  try_catch
    (r ← db_select_by_id env id;
     match r with
     | Failure message => throw (Error message)
     | Data data => mret data
     end)
    (fun error => console_error "Failed to get document:" error;; throw error).

(** The object name: [`${Date.now()}-${random}-${file.name}`]. *)
Definition storage_key (file : File.t) : string :=
  Js.decimal (Env.now env) +:+ "-" +:+ Env.random env +:+ "-" +:+ File.name file.

Definition products_of (productType : string) : list string :=
  if String.eqb productType "structural-floor" then ["3/4-in (20mm)"]
  else ["1/2-in (13mm)"; "5/8-in (16mm)"].

(** The metadata [uploadDocument] builds for a file stored at [fileUrl]. *)
Definition document_of (file : File.t) (productType fileUrl : string) : NewDocument.t :=
  let type := detectDocumentType (File.name file) in
  {| NewDocument.name := extractDocumentName (File.name file) type;
     NewDocument.description := DocumentType_name type +:+ " Document";
     NewDocument.filename := File.name file;
     NewDocument.url := fileUrl;
     NewDocument.size := File.size file;
     NewDocument.type := type;
     NewDocument.required := false;
     NewDocument.products := products_of productType;
     NewDocument.product_type := productType |}.

Definition uploadDocument (file : File.t) (productType : string)
    (onProgress : option Observer) : M Document.t :=
  try_catch
    (let validation := validatePDF file in
     if negb (valid validation) then
       throw (Error (Js.or_else (error validation) "Invalid PDF file"))
     else
       let fileName := storage_key file in
       uploaded ← storage_upload env fileName file;
       match uploaded with
       | Failure uploadError => throw (Error uploadError)
       | Data _ =>
           notify onProgress 50;;
           publicUrlData ← storage_getPublicUrl env fileName;
           let fileUrl := Js.or_else publicUrlData "" in
           let document := document_of file productType fileUrl in
           inserted ← db_insert env document;
           match inserted with
           | Failure insertError =>
               storage_remove env [fileName];;
               throw (Error insertError)
           | Data insertedDoc =>
               notify onProgress 100;;
               mret insertedDoc
           end
       end)
    (fun error => console_error "Failed to upload document:" error;; throw error).

Definition deleteDocument (id : string) : M unit :=
  try_catch
    (found ← getDocument id;
     match found with
     | None => throw (Error "Document not found")
     | Some doc =>
         deleted ← db_delete env id;
         match deleted with
         | Failure dbError => throw (Error dbError)
         | Data _ =>
             if Js.truthy (Document.url doc) then
               try_catch
                 (match Js.pop (Js.split "/" (Document.url doc)) with
                  | Some fileName =>
                      if Js.truthy fileName then
                        storage_remove env [fileName];; mret tt
                      else mret tt
                  | None => mret tt
                  end)
                 (fun storageError =>
                    console_error "Failed to delete file from storage:" storageError)
             else mret tt
         end
     end)
    (fun error => console_error "Failed to delete document:" error;; throw error).

(** [base64.split(',')[1]] *)
Definition payload_of (dataUrl : string) : option string :=
  nth_error (Js.split "," dataUrl) 1.

(** The [FileReader] promise: [onloadend] pushes the entry and resolves,
    [onerror] rejects. *)
Definition read_and_push (d : Document.t) (reader : ReaderOutcome)
    (results : list Materialized) : M (list Materialized) :=
  match reader with
  | ReaderError e => throw e
  | ReaderResult base64 =>
      mret (results ++ [{| doc := d; fileData := payload_of base64 |}])%list
  end.

(** The body of the [for (const doc of documents)] loop, for the
    document at position [i]. *)
Definition export_one (i : nat) (d : Document.t) (results : list Materialized)
    : M (list Materialized) :=
  try_catch
    (if Js.truthy (Document.url d) then
       '(ok, body) ← http_fetch env i (Document.url d);
       if (ok : bool) then
         blob ← response_blob body;
         read_and_push d blob results
       else mret results
     else mret results)
    (fun error =>
       console_error ("Failed to get file data for document " +:+ Document.id d +:+ ":") error;;
       mret results).

Fixpoint export_from (i : nat) (documents : list Document.t) (results : list Materialized)
    : M (list Materialized) :=
  match documents with
  | [] => mret results
  | d :: rest =>
      results' ← export_one i d results;
      export_from (S i) rest results'
  end.

Definition getAllDocumentsWithData : M (list Materialized) :=
  try_catch
    (documents ← getAllDocuments;
     export_from 0 documents [])
    (fun error => console_error "Failed to get documents with data:" error;; throw error).

End DocumentService.

(** * Specification-level definitions *)

(** [p] occurs in [s]. *)
Definition Substring (p s : string) : Prop := exists a b, s = a +:+ p +:+ b.

(** The precedence table of the specification: the substrings of each
    group and the type the group stands for, in order. *)
Definition precedence : list (list string * DocumentType) :=
  [ (["tds"; "technical data"], TDS);
    (["esr"; "evaluation report"], ESR);
    (["msds"; "safety data"], MSDS);
    (["leed"], LEED);
    (["installation"; "install"], Installation);
    (["warranty"], Warranty);
    (["acoustic"; "esl"], Acoustic);
    (["spec"; "3-part"], PartSpec) ].

(** [FirstMatch s table t]: [t] is the type of the first group of [table]
    one of whose substrings occurs in [s], and [TDS] when there is none. *)
Inductive FirstMatch (s : string) : list (list string * DocumentType) -> DocumentType -> Prop :=
| FirstMatch_default : FirstMatch s [] TDS
| FirstMatch_here (group : list string) (t : DocumentType) rest (p : string) :
    In p group -> Substring p s -> FirstMatch s ((group, t) :: rest) t
| FirstMatch_later (group : list string) (t : DocumentType) rest (t' : DocumentType) :
    (forall p, In p group -> ~ Substring p s) ->
    FirstMatch s rest t' -> FirstMatch s ((group, t) :: rest) t'.

(** The table-driven reading of the specification. *)
Fixpoint first_match (s : string) (table : list (list string * DocumentType)) : DocumentType :=
  match table with
  | [] => TDS
  | (group, t) :: rest =>
      if existsb (Js.includes s) group then t else first_match s rest
  end.

Definition classify (filename : string) : DocumentType :=
  first_match (Js.toLowerCase filename) precedence.

(** The bytes of the literal [%PDF]. *)
Definition pdf_signature : list Byte.byte := list_byte_of_string "%PDF".

(** The content starts with the signature. *)
Definition signed (content : list Byte.byte) : Prop :=
  exists rest, content = (pdf_signature ++ rest)%list.

(** The file passes the media-type rule and the two size rules. *)
Definition reaches_content_check (file : File.t) : Prop :=
  File.type file = "application/pdf" /\ (1024 <= File.size file <= MAX_SIZE)%N.

(** The observer returns normally from the checkpoint [n] (or is absent). *)
Definition observer_returns (onProgress : option Observer) (n : N) : Prop :=
  match onProgress with
  | None => True
  | Some observer => observer n = None
  end.

(** The locator [uploadDocument] records for [file]: the public locator of
    its storage key, or the empty string. *)
Definition upload_url (env : Env.t) (file : File.t) : string :=
  Js.or_else (Env.publicUrl env (storage_key env file)) "".

(** The metadata [uploadDocument] sends for [file]. *)
Definition upload_document (env : Env.t) (file : File.t) (productType : string)
    : NewDocument.t :=
  document_of file productType (upload_url env file).

(** The world once the blob is written and its locator obtained. *)
Definition after_blob_write (env : Env.t) (file : File.t) (w : World.t) : World.t :=
  World.issue (StorageGetPublicUrl (storage_key env file))
    (World.set_bucket
       (<[storage_key env file := File.content file]> (World.bucket w))
       (World.issue (StorageUpload (storage_key env file) (File.content file)) w)).

(** [segment] is the final path segment of [url]: it holds no [/], and
    [url] is [segment] itself or ends with [/] followed by [segment]. *)
Definition final_segment (url segment : string) : Prop :=
  ~ Substring "/" segment
  /\ (url = segment \/ exists before, url = before +:+ "/" +:+ segment).

(** The world once the row is looked up and deleted. *)
Definition after_row_delete (id : string) (w : World.t) : World.t :=
  World.set_documents (delete id (World.documents w))
    (World.issue (DbDelete id) (World.issue (DbSelectById id) w)).

Definition has_locator (d : Document.t) : bool := Js.truthy (Document.url d).

(** The entry the fetch issued for the [i]-th document yields, when the
    response is [ok], its body can be read and the reader loads it. *)
Definition fetched (env : Env.t) (i : nat) (d : Document.t) : option Materialized :=
  match Env.fetch env i (Document.url d) with
  | FetchResponse true (BodyBlob (ReaderResult dataUrl)) =>
      Some {| doc := d; fileData := payload_of dataUrl |}
  | _ => None
  end.

(** The fetch is attempted for the [i]-th document and yields no entry. *)
Definition fetch_fails (env : Env.t) (i : nat) (d : Document.t) : bool :=
  has_locator d && negb (bool_decide (is_Some (fetched env i d))).

(** What the [i]-th document contributes to the export. *)
Definition entry (env : Env.t) (i : nat) (d : Document.t) : list Materialized :=
  if has_locator d then
    match fetched env i d with
    | Some m => [m]
    | None => []
    end
  else [].

Fixpoint entries_from (env : Env.t) (i : nat) (documents : list Document.t)
    : list Materialized :=
  match documents with
  | [] => []
  | d :: rest => (entry env i d ++ entries_from env (S i) rest)%list
  end.

(** The number of documents, from position [i] on, whose fetch fails. *)
Fixpoint failures_from (env : Env.t) (i : nat) (documents : list Document.t) : nat :=
  match documents with
  | [] => 0
  | d :: rest => ((if fetch_fails env i d then 1 else 0) + failures_from env (S i) rest)%nat
  end.

(** The number of documents with no locator. *)
Definition unlocated (documents : list Document.t) : nat :=
  length (filter (fun d => has_locator d = false) documents).

(** The fetches an export issues: one per document with a locator. *)
Definition fetch_calls (documents : list Document.t) : list Call :=
  (fun d => HttpFetch (Document.url d)) <$> filter (fun d => has_locator d = true) documents.

(** The rows of the table, as the list query returns them. *)
Definition stored_documents (w : World.t) : list Document.t :=
  newest_first (snd <$> map_to_list (World.documents w)).

(** ** Concrete inputs *)

Definition no_fault {A} : A -> option Fault := fun _ => None.

Definition public_base : string := "https://project.supabase.co/storage/v1/object/public/documents/".

(** A backend in which every call succeeds and the network is down. *)
Definition env_ok : Env.t :=
  {| Env.now := 1700000000000;
     Env.random := "k3j9x0q1z";
     Env.new_id := "doc-1";
     Env.timestamp := "2024-01-01T00:00:00Z";
     Env.upload_fault := no_fault;
     Env.publicUrl := fun key => Some (public_base +:+ key);
     Env.remove_fault := no_fault;
     Env.insert_fault := no_fault;
     Env.select_fault := None;
     Env.select_by_id_fault := no_fault;
     Env.delete_fault := no_fault;
     Env.fetch := fun _ _ => FetchRejects (Error "Failed to fetch") |}.

(** The same backend, yielding no public locator. *)
Definition env_no_locator : Env.t :=
  {| Env.now := Env.now env_ok;
     Env.random := Env.random env_ok;
     Env.new_id := Env.new_id env_ok;
     Env.timestamp := Env.timestamp env_ok;
     Env.upload_fault := no_fault;
     Env.publicUrl := fun _ => None;
     Env.remove_fault := no_fault;
     Env.insert_fault := no_fault;
     Env.select_fault := None;
     Env.select_by_id_fault := no_fault;
     Env.delete_fault := no_fault;
     Env.fetch := Env.fetch env_ok |}.

(** The same backend, refusing the insert; the remove call then rejects. *)
Definition env_rollback_rejects : Env.t :=
  {| Env.now := Env.now env_ok;
     Env.random := Env.random env_ok;
     Env.new_id := Env.new_id env_ok;
     Env.timestamp := Env.timestamp env_ok;
     Env.upload_fault := no_fault;
     Env.publicUrl := Env.publicUrl env_ok;
     Env.remove_fault := fun _ => Some (Reject (Error "storage unreachable"));
     Env.insert_fault := fun _ => Some (Refuse "insert failed");
     Env.select_fault := None;
     Env.select_by_id_fault := no_fault;
     Env.delete_fault := no_fault;
     Env.fetch := Env.fetch env_ok |}.

(** [n] bytes starting with [%PDF-]. *)
Definition pdf_bytes (n : nat) : list Byte.byte :=
  (list_byte_of_string "%PDF-" ++ repeat Byte.x00 (n - 5))%list.

Definition tds_pdf : File.t :=
  File.mk "XYZ-TDS-2023.pdf" "application/pdf" 2048 (pdf_bytes 2048) true.

Definition pdf_of_1024_bytes : File.t :=
  File.mk "sheet.pdf" "application/pdf" 1024 (pdf_bytes 1024) true.

Definition tiny_pdf : File.t :=
  File.mk "tiny.pdf" "application/pdf" 8 (pdf_bytes 8) true.

Definition notes_txt : File.t :=
  File.mk "notes.txt" "text/plain" 5 (list_byte_of_string "hello") true.

Definition html_as_pdf : File.t :=
  File.mk "page.pdf" "application/pdf" 2048
    (list_byte_of_string "<html>" ++ repeat Byte.x00 2042)%list true.

Definition empty_world : World.t := World.mk ∅ ∅ [] [].

(** A stored document and the world that holds it and its blob. *)
Definition stored_key : string := "1700000000000-k3j9x0q1z-XYZ-TDS-2023.pdf".

Definition stored_doc : Document.t :=
  Document.of_new "doc-1" "2024-01-01T00:00:00Z"
    (document_of tds_pdf "structural-floor" (public_base +:+ stored_key)).

Definition world_with_doc : World.t :=
  World.mk {[ "doc-1" := stored_doc ]} {[ stored_key := File.content tds_pdf ]} [] [].

(** Two more stored documents: one with no locator, one uploaded later. *)
Definition draft_doc : Document.t :=
  Document.of_new "doc-0" "2023-12-01T00:00:00Z" (document_of tds_pdf "wall" "").

Definition later_doc : Document.t :=
  Document.of_new "doc-2" "2024-02-01T00:00:00Z"
    (document_of tds_pdf "wall" (public_base +:+ "1700000000001-a1b2c3d4e-XYZ-TDS-2023.pdf")).

Definition world_with_draft : World.t :=
  World.mk (<["doc-0" := draft_doc]> {[ "doc-1" := stored_doc ]}) ∅ [] [].

Definition world_with_two : World.t :=
  World.mk (<["doc-2" := later_doc]> {[ "doc-1" := stored_doc ]}) ∅ [] [].

(** A network that serves the first fetch of an export and fails the others. *)
Definition env_first_fetch_only : Env.t :=
  {| Env.now := Env.now env_ok;
     Env.random := Env.random env_ok;
     Env.new_id := Env.new_id env_ok;
     Env.timestamp := Env.timestamp env_ok;
     Env.upload_fault := no_fault;
     Env.publicUrl := Env.publicUrl env_ok;
     Env.remove_fault := no_fault;
     Env.insert_fault := no_fault;
     Env.select_fault := None;
     Env.select_by_id_fault := no_fault;
     Env.delete_fault := no_fault;
     Env.fetch := fun i _ =>
       match i with
       | O => FetchResponse true (BodyBlob (ReaderResult "data:application/pdf;base64,JVBERi0="))
       | S _ => FetchRejects (Error "Failed to fetch")
       end |}.

(** ** Further definitions and inputs *)

(** The reasons [validatePDF] gives. *)
Definition rejection_reasons : list string :=
  [ "File must be a PDF document";
    "File size exceeds 50MB limit";
    "File is too small to be a valid PDF";
    "File does not appear to be a valid PDF";
    "Failed to read file" ].

(** What a method throws when a backend call fails: [new Error(message)]
    for a call that resolves to [{ error }], the rejection itself for a
    call that rejects. *)
Definition thrown_for (fault : Fault) : Exn :=
  match fault with
  | Refuse message => Error message
  | Reject e => e
  end.

(** The exception the loop body of the export catches for the [i]-th
    document, when its fetch, its body or its reader fails by throwing. *)
Definition caught (env : Env.t) (i : nat) (d : Document.t) : option Exn :=
  match Env.fetch env i (Document.url d) with
  | FetchRejects e => Some e
  | FetchResponse true (BodyRejects e) => Some e
  | FetchResponse true (BodyBlob (ReaderError e)) => Some e
  | _ => None
  end.

(** The same backend as [env_ok], with the clock at [now] and [id] as the
    id the database assigns. *)
Definition env_at (now : N) (id : string) : Env.t :=
  {| Env.now := now;
     Env.random := Env.random env_ok;
     Env.new_id := id;
     Env.timestamp := Env.timestamp env_ok;
     Env.upload_fault := no_fault;
     Env.publicUrl := Env.publicUrl env_ok;
     Env.remove_fault := no_fault;
     Env.insert_fault := no_fault;
     Env.select_fault := None;
     Env.select_by_id_fault := no_fault;
     Env.delete_fault := no_fault;
     Env.fetch := Env.fetch env_ok |}.

(** The same backend, with the faults given for the upload, the row
    deletion and the list query. *)
Definition env_failing (upload delete select : option Fault) : Env.t :=
  {| Env.now := Env.now env_ok;
     Env.random := Env.random env_ok;
     Env.new_id := Env.new_id env_ok;
     Env.timestamp := Env.timestamp env_ok;
     Env.upload_fault := fun _ => upload;
     Env.publicUrl := Env.publicUrl env_ok;
     Env.remove_fault := no_fault;
     Env.insert_fault := no_fault;
     Env.select_fault := select;
     Env.select_by_id_fault := no_fault;
     Env.delete_fault := fun _ => delete;
     Env.fetch := Env.fetch env_ok |}.

(** The same backend, on a network that answers every fetch with a
    response that is not [ok]. *)
Definition env_not_found : Env.t :=
  {| Env.now := Env.now env_ok;
     Env.random := Env.random env_ok;
     Env.new_id := Env.new_id env_ok;
     Env.timestamp := Env.timestamp env_ok;
     Env.upload_fault := no_fault;
     Env.publicUrl := Env.publicUrl env_ok;
     Env.remove_fault := no_fault;
     Env.insert_fault := no_fault;
     Env.select_fault := None;
     Env.select_by_id_fault := no_fault;
     Env.delete_fault := no_fault;
     Env.fetch := fun _ _ => FetchResponse false (BodyRejects (Error "unused")) |}.

(** An observer that throws at the checkpoint [n] and returns at the others. *)
Definition throws_at (n : N) : Observer :=
  fun progress => if (progress =? n)%N then Some (Error "observer failed") else None.

(** ** The list by product type *)

(** The filtered list query, which the calls of the other methods do not
    include, and the world together with the log of these queries. *)
Inductive FilteredQuery :=
| DbSelectByProductType (productType : string).

Module Session.
Record t := mk {
  world : World.t;
  queries : list FilteredQuery;
}.

Definition issue (q : FilteredQuery) (s : t) : t := mk (world s) (queries s ++ [q]).
Definition print (line : string) (e : Exn) (s : t) : t :=
  mk (World.print line e (world s)) (queries s).
End Session.

(** [from('documents').select('*').eq('product_type', productType)
    .order('created_at', { ascending: false })]; [fault] is what the
    environment decides for this query. *)
Definition db_select_by_product_type (fault : option Fault) (productType : string)
    (s : Session.t) : Completion (Response (list Document.t)) * Session.t :=
  let s := Session.issue (DbSelectByProductType productType) s in
  match fault with
  | Some (Reject e) => (Thrown e, s)
  | Some (Refuse m) => (Returned (Failure m), s)
  | None =>
      (Returned
         (Data (newest_first
                  (filter (fun d => Document.product_type d = productType)
                     (snd <$> map_to_list (World.documents (Session.world s)))))), s)
  end.

(** [getDocumentsByProductType]: the query, [throw new Error(error.message)]
    on its error, and the [catch] that logs and rethrows. *)
Definition getDocumentsByProductType (fault : option Fault) (productType : string)
    (s : Session.t) : Completion (list Document.t) * Session.t :=
  match db_select_by_product_type fault productType s with
  | (Returned (Data data), s') => (Returned data, s')
  | (Returned (Failure message), s') =>
      (Thrown (Error message), Session.print "Failed to load documents:" (Error message) s')
  | (Thrown error, s') =>
      (Thrown error, Session.print "Failed to load documents:" error s')
  end.

(** ** The compensating delete *)

(** The call resolves, to [{ data }] or to [{ error }]: the way the
    storage client reports the outcome of a call, its failures included. *)
Definition resolves (fault : option Fault) : Prop :=
  match fault with
  | Some (Reject _) => False
  | _ => True
  end.

(** The same backend as [env_ok], refusing the insert and then the remove
    call. *)
Definition env_rollback_refused : Env.t :=
  {| Env.now := Env.now env_ok;
     Env.random := Env.random env_ok;
     Env.new_id := Env.new_id env_ok;
     Env.timestamp := Env.timestamp env_ok;
     Env.upload_fault := no_fault;
     Env.publicUrl := Env.publicUrl env_ok;
     Env.remove_fault := fun _ => Some (Refuse "Object not found");
     Env.insert_fault := fun _ => Some (Refuse "insert failed");
     Env.select_fault := None;
     Env.select_by_id_fault := no_fault;
     Env.delete_fault := no_fault;
     Env.fetch := Env.fetch env_ok |}.

(** * Properties *)

Ltac run :=
  unfold mbind, M_bind, mret, M_ret, throw, try_catch, console_error, notify in *.

(** ** Checks on concrete inputs *)

Example lower_ex : Js.toLowerCase "XYZ-TDS-2023.pdf" = "xyz-tds-2023.pdf".
Proof. reflexivity. Qed.
Example split_ex : Js.split "/" "https://h/storage/documents/17-ab-a.pdf"
                   = ["https:"; ""; "h"; "storage"; "documents"; "17-ab-a.pdf"].
Proof. reflexivity. Qed.
Example split_ex2 : Js.split "/" "a/" = ["a"; ""] /\ Js.split "/" "" = [""].
Proof. split; reflexivity. Qed.
Example detect_ex : detectDocumentType "XYZ-TDS-2023.pdf" = TDS
  /\ detectDocumentType "Install Guide.pdf" = Installation
  /\ detectDocumentType "MSDS sheet.pdf" = MSDS
  /\ detectDocumentType "hello.pdf" = TDS
  /\ detectDocumentType "Wesley.pdf" = Acoustic.
Proof. repeat split; reflexivity. Qed.
Example strip_ex : strip_pdf_extension "a.PDF" = "a" /\ strip_pdf_extension "a.pdf.txt" = "a.pdf.txt".
Proof. split; reflexivity. Qed.

(** A valid 2KB file named [XYZ-TDS-2023.pdf], uploaded for the product
    type [structural-floor]. *)
Example tds_pdf_metadata :
  validatePDF tds_pdf = accept
  /\ NewDocument.type (upload_document env_ok tds_pdf "structural-floor") = TDS
  /\ NewDocument.name (upload_document env_ok tds_pdf "structural-floor") = "Technical Data Sheet"
  /\ NewDocument.products (upload_document env_ok tds_pdf "structural-floor") = ["3/4-in (20mm)"]
  /\ NewDocument.products (upload_document env_ok tds_pdf "wall") = ["1/2-in (13mm)"; "5/8-in (16mm)"]
  /\ storage_key env_ok tds_pdf = "1700000000000-k3j9x0q1z-XYZ-TDS-2023.pdf".
Proof. repeat split; reflexivity. Qed.


(** ** Strings *)

Lemma append_cons (c : ascii) (a b : string) : String c a +:+ b = String c (a +:+ b).
Proof. reflexivity. Qed.

Lemma append_nil (b : string) : "" +:+ b = b.
Proof. reflexivity. Qed.

Lemma startsWith_spec (s p : string) :
  Js.startsWith s p = true <-> exists b, s = p +:+ b.
Proof.
  unfold Js.startsWith. revert s.
  induction p as [|c p IH]; intros s.
  - split; [intros _; exists s; reflexivity | intros _; destruct s; reflexivity].
  - destruct s as [|d s]; simpl.
    + split; [discriminate | intros [b Hb]; discriminate].
    + destruct (ascii_dec c d) as [->|Hne].
      * rewrite IH. split; intros [b Hb]; exists b;
          rewrite append_cons in *; congruence.
      * split; [discriminate | intros [b Hb]; rewrite append_cons in Hb; congruence].
Qed.

Lemma includes_unfold (s p : string) :
  Js.includes s p =
  Js.startsWith s p ||
  match s with EmptyString => false | String _ s' => Js.includes s' p end.
Proof. destruct s; reflexivity. Qed.

Lemma includes_spec (s p : string) :
  Js.includes s p = true <-> Substring p s.
Proof.
  unfold Substring. induction s as [|c s IH].
  - rewrite includes_unfold, orb_false_r, startsWith_spec. split.
    + intros [b Hb]. exists "", b. exact Hb.
    + intros ([|x a] & b & Hb); [exists b; exact Hb | discriminate].
  - rewrite includes_unfold, orb_true_iff, IH, startsWith_spec. split.
    + intros [[b Hb] | (a & b & Hb)].
      * exists "", b. exact Hb.
      * exists (String c a), b. rewrite append_cons. congruence.
    + intros ([|x a] & b & Hb).
      * left. exists b. exact Hb.
      * right. exists a, b. rewrite append_cons in Hb. congruence.
Qed.

Lemma includes_false (s p : string) :
  Js.includes s p = false <-> ~ Substring p s.
Proof.
  rewrite <- includes_spec. destruct (Js.includes s p); split; congruence.
Qed.

Lemma toLowerCase_length (s : string) :
  String.length (Js.toLowerCase s) = String.length s.
Proof. induction s; simpl; congruence. Qed.

Lemma toLowerCase_get (s : string) (i : nat) :
  String.get i (Js.toLowerCase s) = Js.lower_char <$> String.get i s.
Proof.
  revert i. induction s as [|c s IH]; intros [|i]; simpl; auto.
Qed.

(** ** The classifier (C5) *)

Lemma first_match_sound (s : string) table : FirstMatch s table (first_match s table).
Proof.
  induction table as [|[group t] rest IH]; simpl.
  - constructor.
  - destruct (existsb (Js.includes s) group) eqn:E.
    + apply List.existsb_exists in E as (p & Hin & Hp).
      eapply FirstMatch_here; [exact Hin | apply includes_spec; exact Hp].
    + apply FirstMatch_later; [|exact IH].
      intros p Hin Hsub. apply includes_spec in Hsub.
      assert (existsb (Js.includes s) group = true) as E'
        by (apply List.existsb_exists; exists p; auto).
      congruence.
Qed.

Lemma FirstMatch_functional (s : string) table t1 t2 :
  FirstMatch s table t1 -> FirstMatch s table t2 -> t1 = t2.
Proof.
  intros H1. revert t2.
  induction H1 as [|group t rest p Hin Hsub|group t rest t' Hnone _ IH];
    intros t2 H2; inversion H2; subst; auto.
  - exfalso. eapply H4; eauto.
  - exfalso. eapply Hnone; eauto.
Qed.

Lemma detectDocumentType_classify (filename : string) :
  detectDocumentType filename = classify filename.
Proof.
  unfold detectDocumentType, classify, precedence.
  cbn [first_match existsb]. rewrite !orb_false_r. reflexivity.
Qed.

(** C5: the classifier lower-cases the filename and returns the type of
    the first group, in the order tds/technical data, esr/evaluation
    report, msds/safety data, leed, installation/install, warranty,
    acoustic/esl, spec/3-part, one of whose substrings occurs in it, and
    [TDS] when no group matches: it computes the table-driven
    classification, and a type is the first match of the lower-cased
    filename in the precedence table exactly when the classifier returns it. *)
Theorem detectDocumentType_first_match (filename : string) :
  detectDocumentType filename = first_match (Js.toLowerCase filename) precedence
  /\ forall t : DocumentType,
       FirstMatch (Js.toLowerCase filename) precedence t <-> detectDocumentType filename = t.
Proof.
  split; [apply detectDocumentType_classify|].
  intros t. split.
  - intros H. rewrite detectDocumentType_classify.
    eapply FirstMatch_functional; [apply first_match_sound | exact H].
  - intros <-. rewrite detectDocumentType_classify. apply first_match_sound.
Qed.

(** ** The validator (C2, C7) *)

Lemma string_of_list_byte_app (xs ys : list Byte.byte) :
  string_of_list_byte (xs ++ ys) = string_of_list_byte xs +:+ string_of_list_byte ys.
Proof.
  induction xs as [|x xs IH]; [reflexivity|].
  change (string_of_list_byte ((x :: xs) ++ ys))
    with (String (ascii_of_byte x) (string_of_list_byte (xs ++ ys))).
  rewrite IH. reflexivity.
Qed.

Lemma list_byte_of_string_app (s t : string) :
  list_byte_of_string (s +:+ t) = (list_byte_of_string s ++ list_byte_of_string t)%list.
Proof.
  induction s as [|c s IH]; [reflexivity|].
  rewrite append_cons.
  change (list_byte_of_string (String c (s +:+ t)))
    with (byte_of_ascii c :: list_byte_of_string (s +:+ t)).
  rewrite IH. reflexivity.
Qed.

Lemma startsWith_fromCharCode (bytes : list Byte.byte) (p : string) :
  Js.startsWith (Js.fromCharCode bytes) p = true
  <-> exists rest, bytes = (list_byte_of_string p ++ rest)%list.
Proof.
  unfold Js.fromCharCode. rewrite startsWith_spec. split.
  - intros [b Hb]. exists (list_byte_of_string b).
    rewrite <- list_byte_of_string_app, <- Hb.
    symmetry. apply list_byte_of_string_of_list_byte.
  - intros [rest ->]. exists (string_of_list_byte rest).
    rewrite string_of_list_byte_app, string_of_list_byte_of_string. reflexivity.
Qed.

Lemma firstn_starts (n : nat) (p content : list Byte.byte) :
  (length p <= n)%nat ->
  (exists rest, firstn n content = (p ++ rest)%list)
  <-> exists rest, content = (p ++ rest)%list.
Proof.
  intros Hlen. split.
  - intros [rest Hrest]. exists (rest ++ skipn n content)%list.
    rewrite List.app_assoc, <- Hrest. symmetry. apply firstn_skipn.
  - intros [rest ->]. exists (firstn (n - length p) rest).
    rewrite List.firstn_app, List.firstn_all2 by exact Hlen. reflexivity.
Qed.

(** The signature test of the validator looks at the first five bytes and
    holds exactly when the content starts with [%PDF]. *)
Lemma signature_test (content : list Byte.byte) :
  Js.startsWith (Js.fromCharCode (firstn 5 content)) "%PDF" = true <-> signed content.
Proof.
  rewrite startsWith_fromCharCode. apply firstn_starts. simpl. lia.
Qed.

Lemma slice_first_five (file : File.t) :
  File.slice_arrayBuffer file 0 5 =
  if File.readable file then Some (firstn 5 (File.content file)) else None.
Proof. reflexivity. Qed.

Lemma validatePDF_content_check (file : File.t) :
  reaches_content_check file ->
  validatePDF file =
  match File.slice_arrayBuffer file 0 5 with
  | Some bytes =>
      if Js.startsWith (Js.fromCharCode bytes) "%PDF" then accept
      else reject "File does not appear to be a valid PDF"
  | None => reject "Failed to read file"
  end.
Proof.
  intros [Htype [Hlo Hhi]]. unfold validatePDF.
  apply String.eqb_eq in Htype. rewrite Htype. simpl negb. cbv iota.
  destruct (N.ltb_spec MAX_SIZE (File.size file)); [lia|].
  destruct (N.ltb_spec (File.size file) 1024); [lia|].
  destruct (File.slice_arrayBuffer file 0 5); [|reflexivity].
  destruct (Js.startsWith _ _); reflexivity.
Qed.

Lemma validatePDF_wrong_type (file : File.t) :
  File.type file <> "application/pdf" ->
  validatePDF file = reject "File must be a PDF document".
Proof.
  intros H. unfold validatePDF.
  apply String.eqb_neq in H. rewrite H. reflexivity.
Qed.

Lemma validatePDF_too_large (file : File.t) :
  File.type file = "application/pdf" -> (MAX_SIZE < File.size file)%N ->
  validatePDF file = reject "File size exceeds 50MB limit".
Proof.
  intros Htype H. unfold validatePDF.
  apply String.eqb_eq in Htype. rewrite Htype.
  apply N.ltb_lt in H. rewrite H. reflexivity.
Qed.

Lemma validatePDF_too_small (file : File.t) :
  File.type file = "application/pdf" -> (File.size file < 1024)%N ->
  validatePDF file = reject "File is too small to be a valid PDF".
Proof.
  intros Htype H. unfold validatePDF.
  apply String.eqb_eq in Htype. rewrite Htype. simpl negb. cbv iota.
  destruct (N.ltb_spec MAX_SIZE (File.size file)); [unfold MAX_SIZE in *; lia|].
  apply N.ltb_lt in H. rewrite H. reflexivity.
Qed.

(** Every verdict is an acceptance or a rejection with a reason. *)
Lemma validatePDF_verdict (file : File.t) :
  validatePDF file = accept \/ exists reason, validatePDF file = reject reason.
Proof.
  unfold validatePDF.
  repeat match goal with
         | |- context [if ?b then _ else _] => destruct b
         | |- context [match ?o with Some _ => _ | None => _ end] => destruct o
         end; eauto.
Qed.

Lemma validatePDF_valid_inv (file : File.t) :
  valid (validatePDF file) = true ->
  reaches_content_check file /\ File.readable file = true /\ signed (File.content file).
Proof.
  unfold validatePDF, reaches_content_check.
  destruct (String.eqb_spec (File.type file) "application/pdf") as [Htype|]; [|discriminate].
  simpl negb. cbv iota.
  destruct (N.ltb_spec MAX_SIZE (File.size file)); [discriminate|].
  destruct (N.ltb_spec (File.size file) 1024); [discriminate|].
  rewrite slice_first_five.
  destruct (File.readable file); [|discriminate].
  destruct (Js.startsWith _ _) eqn:E; [|discriminate].
  intros _. repeat split; auto. apply signature_test. exact E.
Qed.

Lemma validatePDF_valid_intro (file : File.t) :
  reaches_content_check file -> File.readable file = true -> signed (File.content file) ->
  validatePDF file = accept.
Proof.
  intros Hreach Hread Hsig. rewrite validatePDF_content_check by exact Hreach.
  rewrite slice_first_five, Hread.
  apply signature_test in Hsig. rewrite Hsig. reflexivity.
Qed.

(** ** Running the monad *)

Lemma notify_returns (onProgress : option Observer) (n : N) (w : World.t) :
  observer_returns onProgress n -> notify onProgress n w = (Returned tt, w).
Proof.
  unfold notify, observer_returns. destruct onProgress as [observer|]; [|reflexivity].
  intros ->. reflexivity.
Qed.

Lemma notify_world (onProgress : option Observer) (n : N) (w w' : World.t) c :
  notify onProgress n w = (c, w') -> w' = w.
Proof.
  unfold notify. destruct onProgress as [observer|]; [destruct (observer n)|];
    run; intros H; injection H as _ <-; reflexivity.
Qed.

Lemma invalid_reason (file : File.t) :
  valid (validatePDF file) = false ->
  exists reason, validatePDF file = reject reason
                 /\ Js.or_else (error (validatePDF file)) "Invalid PDF file" = reason.
Proof.
  unfold validatePDF.
  repeat match goal with
         | |- context [if ?b then _ else _] => destruct b
         | |- context [match ?o with Some _ => _ | None => _ end] => destruct o
         end; simpl; intros H; try discriminate H; eexists; split; reflexivity.
Qed.

(** ** The upload pipeline (C1, C3, C8, C9) *)

Section Upload.
Context (env : Env.t) (file : File.t) (productType : string)
        (onProgress : option Observer).

Lemma uploadDocument_invalid (w : World.t) :
  valid (validatePDF file) = false ->
  exists reason,
    validatePDF file = reject reason /\
    uploadDocument env file productType onProgress w =
    (Thrown (Error reason),
     World.print "Failed to upload document:" (Error reason) w).
Proof.
  intros Hinvalid. destruct (invalid_reason file Hinvalid) as (reason & Hverdict & Hreason).
  exists reason. split; [exact Hverdict|].
  unfold uploadDocument. run. rewrite Hinvalid, Hreason. reflexivity.
Qed.

(** A valid file whose blob is written and whose metadata insert is
    refused with [message]: the remove call is issued for the same key,
    and what the caller receives depends on how that call ends. *)
Lemma uploadDocument_insert_refused (w : World.t) (message : string) :
  valid (validatePDF file) = true ->
  Env.upload_fault env (storage_key env file) = None ->
  observer_returns onProgress 50 ->
  Env.insert_fault env (upload_document env file productType) = Some (Refuse message) ->
  let w3 := World.issue (StorageRemove [storage_key env file])
              (World.issue (DbInsert (upload_document env file productType))
                 (after_blob_write env file w)) in
  uploadDocument env file productType onProgress w =
  match Env.remove_fault env [storage_key env file] with
  | Some (Reject e) =>
      (Thrown e, World.print "Failed to upload document:" e w3)
  | Some (Refuse _) =>
      (Thrown (Error message),
       World.print "Failed to upload document:" (Error message) w3)
  | None =>
      (Thrown (Error message),
       World.print "Failed to upload document:" (Error message)
         (World.set_bucket (delete (storage_key env file) (World.bucket w3)) w3))
  end.
Proof.
  intros Hvalid Hupload Hobs Hinsert. cbv zeta.
  unfold uploadDocument, try_catch.
  rewrite Hvalid. cbv [negb].
  unfold mbind, M_bind, storage_upload. rewrite Hupload.
  cbv beta iota zeta.
  rewrite notify_returns by exact Hobs.
  unfold storage_getPublicUrl, db_insert. cbv beta iota zeta.
  fold (upload_url env file). fold (upload_document env file productType).
  rewrite Hinsert. unfold storage_remove. cbv beta iota zeta.
  destruct (Env.remove_fault env [storage_key env file]) as [[m|e]|]; reflexivity.
Qed.

(** The same, when the insert call rejects: no remove call is issued. *)
Lemma uploadDocument_insert_rejected (w : World.t) (e : Exn) :
  valid (validatePDF file) = true ->
  Env.upload_fault env (storage_key env file) = None ->
  observer_returns onProgress 50 ->
  Env.insert_fault env (upload_document env file productType) = Some (Reject e) ->
  uploadDocument env file productType onProgress w =
  (Thrown e,
   World.print "Failed to upload document:" e
     (World.issue (DbInsert (upload_document env file productType))
        (after_blob_write env file w))).
Proof.
  intros Hvalid Hupload Hobs Hinsert.
  unfold uploadDocument, try_catch.
  rewrite Hvalid. cbv [negb].
  unfold mbind, M_bind, storage_upload. rewrite Hupload.
  cbv beta iota zeta.
  rewrite notify_returns by exact Hobs.
  unfold storage_getPublicUrl, db_insert. cbv beta iota zeta.
  fold (upload_url env file). fold (upload_document env file productType).
  rewrite Hinsert. reflexivity.
Qed.

(** What a returned upload went through, and what it left. *)
Lemma uploadDocument_returned (w w' : World.t) (d : Document.t) :
  uploadDocument env file productType onProgress w = (Returned d, w') ->
  valid (validatePDF file) = true
  /\ Env.upload_fault env (storage_key env file) = None
  /\ Env.insert_fault env (upload_document env file productType) = None
  /\ d = Document.of_new (Env.new_id env) (Env.timestamp env)
           (upload_document env file productType)
  /\ w' = World.set_documents
            (<[Env.new_id env := d]> (World.documents (after_blob_write env file w)))
            (World.issue (DbInsert (upload_document env file productType))
               (after_blob_write env file w)).
Proof.
  unfold uploadDocument, try_catch.
  destruct (valid (validatePDF file)); cbv [negb];
    [|run; discriminate].
  unfold mbind, M_bind, storage_upload.
  destruct (Env.upload_fault env (storage_key env file)) as [[m|e]|];
    [run; discriminate | run; discriminate |].
  cbv beta iota zeta.
  destruct (notify onProgress 50 _) as [[[]|e] w1] eqn:H50.
  2:{ run. discriminate. }
  apply notify_world in H50. subst w1.
  unfold storage_getPublicUrl, db_insert. cbv beta iota zeta.
  fold (upload_url env file). fold (upload_document env file productType).
  destruct (Env.insert_fault env (upload_document env file productType)) as [[m|e]|].
  - unfold storage_remove. cbv beta iota zeta.
    destruct (Env.remove_fault env [storage_key env file]) as [[m'|e]|]; run; discriminate.
  - run. discriminate.
  - destruct (notify onProgress 100 _) as [[[]|e] w2] eqn:H100.
    2:{ run. discriminate. }
    intros H. run. injection H as <- <-.
    repeat split; auto.
    apply notify_world in H100. rewrite H100. reflexivity.
Qed.

(** The record a returned upload persists. *)
Lemma uploadDocument_persisted (w w' : World.t) (d : Document.t) :
  uploadDocument env file productType onProgress w = (Returned d, w') ->
  World.documents w' !! Document.id d = Some d
  /\ Document.url d = upload_url env file
  /\ Document.filename d = File.name file
  /\ Document.size d = File.size file
  /\ Document.type d = detectDocumentType (File.name file).
Proof.
  intros Hrun. apply uploadDocument_returned in Hrun as (_ & _ & _ & Hd & Hw').
  split.
  - rewrite Hw'. cbn. rewrite Hd at 1. cbn. apply lookup_insert_eq.
  - rewrite Hd. repeat split.
Qed.
End Upload.

(** ** C9: an invalid file touches no store *)

(** C9: for every upload input on which validation returns an invalid
    verdict, [uploadDocument] throws the error carrying the verdict's
    reason, and the table, the bucket and the log of backend calls are
    exactly as before the call. *)
Theorem uploadDocument_invalid_input
    (env : Env.t) (file : File.t) (productType : string)
    (onProgress : option Observer) (w : World.t) :
  valid (validatePDF file) = false ->
  exists reason w',
    validatePDF file = reject reason
    /\ uploadDocument env file productType onProgress w = (Thrown (Error reason), w')
    /\ World.documents w' = World.documents w
    /\ World.bucket w' = World.bucket w
    /\ World.calls w' = World.calls w.
Proof.
  intros Hinvalid.
  destruct (uploadDocument_invalid env file productType onProgress w Hinvalid)
    as (reason & Hverdict & Hrun).
  exists reason, (World.print "Failed to upload document:" (Error reason) w).
  repeat split; auto.
Qed.

Lemma uploadDocument_invalid_input_witness :
  valid (validatePDF notes_txt) = false
  /\ exists reason w',
       validatePDF notes_txt = reject reason
       /\ uploadDocument env_ok notes_txt "wall" None empty_world = (Thrown (Error reason), w')
       /\ World.documents w' = World.documents empty_world
       /\ World.bucket w' = World.bucket empty_world
       /\ World.calls w' = World.calls empty_world.
Proof.
  split; [reflexivity|].
  apply (uploadDocument_invalid_input env_ok notes_txt "wall" None empty_world).
  reflexivity.
Defined.

(** ** C2: the size rules *)

(** C2 as stated fails at the boundary: a well-formed PDF of exactly 1024
    bytes has a declared size [<= 1024] and is accepted. *)
Lemma validatePDF_accepts_1024_bytes :
  File.well_formed pdf_of_1024_bytes
  /\ (File.size pdf_of_1024_bytes <= 1024)%N
  /\ validatePDF pdf_of_1024_bytes = accept.
Proof.
  split; [reflexivity|]. split; [vm_compute; discriminate | reflexivity].
Qed.

(** C2, amended: validation fails when the declared size is [< 1024] or
    [> 50 * 1024 * 1024] bytes; for a file declared as PDF the reason is
    "File is too small to be a valid PDF", respectively "File size exceeds
    50MB limit"; the upload of such a file issues no backend call and
    leaves both stores as they were. The size rules accept exactly the
    sizes [s] with [1024 <= s <= 50 * 1024 * 1024]: a readable file
    declared as PDF and starting with [%PDF] is valid exactly for those. *)
Theorem validatePDF_size_rules (file : File.t) :
  (File.type file = "application/pdf" -> File.readable file = true ->
   signed (File.content file) ->
   (valid (validatePDF file) = true <-> (1024 <= File.size file <= 50 * 1024 * 1024)%N))
  /\ ((File.size file < 1024)%N \/ (50 * 1024 * 1024 < File.size file)%N ->
      valid (validatePDF file) = false
      /\ (File.type file = "application/pdf" ->
          validatePDF file =
          reject (if (File.size file <? 1024)%N
                  then "File is too small to be a valid PDF"
                  else "File size exceeds 50MB limit"))
      /\ forall env productType onProgress w,
           let w' := snd (uploadDocument env file productType onProgress w) in
           World.calls w' = World.calls w
           /\ World.documents w' = World.documents w
           /\ World.bucket w' = World.bucket w).
Proof.
  split.
  - intros Htype Hread Hsig. split.
    + intros Hvalid. apply validatePDF_valid_inv in Hvalid as [[_ Hsize] _]. exact Hsize.
    + intros Hsize. rewrite validatePDF_valid_intro; [reflexivity| |assumption..].
      split; assumption.
  - intros Hsize.
    assert (valid (validatePDF file) = false) as Hinvalid.
    { destruct (valid (validatePDF file)) eqn:E; [|reflexivity].
      apply validatePDF_valid_inv in E as [[_ E] _].
      unfold MAX_SIZE in E. lia. }
    split; [exact Hinvalid|]. split.
    + intros Htype. destruct (N.ltb_spec (File.size file) 1024) as [Hlt|Hge].
      * apply validatePDF_too_small; assumption.
      * apply validatePDF_too_large; [assumption | unfold MAX_SIZE; lia].
    + intros env productType onProgress w.
      destruct (uploadDocument_invalid env file productType onProgress w Hinvalid)
        as (reason & _ & ->).
      repeat split.
Qed.

Lemma validatePDF_size_rules_witness :
  ((File.size tiny_pdf < 1024)%N \/ (50 * 1024 * 1024 < File.size tiny_pdf)%N)
  /\ valid (validatePDF tiny_pdf) = false
  /\ validatePDF tiny_pdf = reject "File is too small to be a valid PDF".
Proof.
  assert ((File.size tiny_pdf < 1024)%N \/ (50 * 1024 * 1024 < File.size tiny_pdf)%N) as H
    by (left; reflexivity).
  split; [exact H|].
  destruct (proj2 (validatePDF_size_rules tiny_pdf) H) as (Hinvalid & Hreason & _).
  split; [exact Hinvalid | exact (Hreason eq_refl)].
Defined.

(** ** C7: the signature rule *)

Lemma validatePDF_unsigned_invalid (file : File.t) :
  ~ signed (File.content file) \/ File.readable file = false ->
  valid (validatePDF file) = false.
Proof.
  intros H. destruct (valid (validatePDF file)) eqn:E; [|reflexivity].
  apply validatePDF_valid_inv in E as (_ & Hread & Hsig).
  destruct H as [H|H]; [contradiction | congruence].
Qed.

(** C7 as stated fails on a file that an earlier rule rejects: a text
    file that does not start with [%PDF] is rejected for its media type,
    not for its signature. *)
Lemma validatePDF_notes_txt_reason :
  File.well_formed notes_txt
  /\ ~ signed (File.content notes_txt)
  /\ validatePDF notes_txt = reject "File must be a PDF document"
  /\ validatePDF notes_txt <> reject "File does not appear to be a valid PDF".
Proof.
  split; [reflexivity|]. split.
  - intros [rest H]. discriminate H.
  - split; [reflexivity | discriminate].
Qed.

(** C7, amended: every file whose content does not start with [%PDF], or
    cannot be read, fails validation. For every file that passes the
    media-type and size rules, the validator reads the first five bytes of
    the content (exactly five for a file whose size is that of its
    content) and nothing else of it; if they do not start with [%PDF],
    validation fails with reason "File does not appear to be a valid PDF";
    if the content cannot be read, it fails with reason "Failed to read
    file". *)
Theorem validatePDF_signature_rule (file : File.t) :
  (~ signed (File.content file) \/ File.readable file = false ->
   valid (validatePDF file) = false)
  /\ (reaches_content_check file ->
      (File.readable file = true ->
       File.slice_arrayBuffer file 0 5 = Some (firstn 5 (File.content file))
       /\ (File.well_formed file -> length (firstn 5 (File.content file)) = 5%nat))
      /\ (File.readable file = true -> ~ signed (File.content file) ->
          validatePDF file = reject "File does not appear to be a valid PDF")
      /\ (File.readable file = false -> validatePDF file = reject "Failed to read file")
      /\ (forall other : File.t,
            File.type other = File.type file -> File.size other = File.size file ->
            File.readable other = File.readable file ->
            firstn 5 (File.content other) = firstn 5 (File.content file) ->
            validatePDF other = validatePDF file)).
Proof.
  split; [apply validatePDF_unsigned_invalid|].
  intros Hreach. split; [|split; [|split]].
  - intros Hread. split.
    + rewrite slice_first_five, Hread. reflexivity.
    + intros Hwf. apply List.firstn_length_le.
      destruct Hreach as [_ [Hlo _]]. unfold File.well_formed in Hwf. lia.
  - intros Hread Hunsigned.
    rewrite validatePDF_content_check, slice_first_five, Hread by exact Hreach.
    destruct (Js.startsWith _ _) eqn:E; [|reflexivity].
    apply signature_test in E. contradiction.
  - intros Hread.
    rewrite validatePDF_content_check, slice_first_five, Hread by exact Hreach.
    reflexivity.
  - intros other Htype Hsize Hread Hfirst.
    unfold validatePDF. rewrite !slice_first_five, Htype, Hsize, Hread, Hfirst.
    reflexivity.
Qed.

Lemma validatePDF_signature_rule_witness :
  reaches_content_check html_as_pdf
  /\ ~ signed (File.content html_as_pdf)
  /\ valid (validatePDF html_as_pdf) = false
  /\ validatePDF html_as_pdf = reject "File does not appear to be a valid PDF".
Proof.
  assert (reaches_content_check html_as_pdf) as Hreach.
  { split; [reflexivity|]. split; vm_compute; discriminate. }
  assert (~ signed (File.content html_as_pdf)) as Hunsigned.
  { intros [rest H]. discriminate H. }
  destruct (validatePDF_signature_rule html_as_pdf) as (Hfails & Hrules).
  destruct (Hrules Hreach) as (_ & Hrule & _).
  split; [exact Hreach|]. split; [exact Hunsigned|].
  split; [apply Hfails; left; exact Hunsigned | apply Hrule; [reflexivity | exact Hunsigned]].
Defined.

(** ** C1: the compensating delete *)

(** C1: for every upload in which the blob write succeeds and the
    metadata insert then fails, [uploadDocument] issues the remove call
    for the storage key it wrote, as the last of its calls, and throws
    the error of the insert: the caller receives [new Error] of the
    insert's message whether the remove call resolves to success or to an
    error of its own. The table is unchanged, and the blob is gone from
    the bucket when the remove call succeeds. *)
Theorem uploadDocument_compensating_delete
    (env : Env.t) (file : File.t) (productType : string)
    (onProgress : option Observer) (w : World.t) (message : string) :
  valid (validatePDF file) = true ->
  Env.upload_fault env (storage_key env file) = None ->
  observer_returns onProgress 50 ->
  Env.insert_fault env (upload_document env file productType) = Some (Refuse message) ->
  resolves (Env.remove_fault env [storage_key env file]) ->
  exists w',
    uploadDocument env file productType onProgress w = (Thrown (Error message), w')
    /\ World.calls w' =
       (World.calls w ++
        [StorageUpload (storage_key env file) (File.content file);
         StorageGetPublicUrl (storage_key env file);
         DbInsert (upload_document env file productType);
         StorageRemove [storage_key env file]])%list
    /\ World.documents w' = World.documents w
    /\ (Env.remove_fault env [storage_key env file] = None ->
        World.bucket w' !! storage_key env file = None).
Proof.
  intros Hvalid Hupload Hobs Hinsert Hresolves.
  rewrite (uploadDocument_insert_refused env file productType onProgress w message)
    by assumption.
  destruct (Env.remove_fault env [storage_key env file]) as [[m|e]|];
    [|contradiction|]; cbv zeta; eexists; (split; [reflexivity|]); cbn;
    rewrite <- !List.app_assoc; (split; [reflexivity|]); (split; [reflexivity|]).
  - discriminate.
  - intros _. apply lookup_delete_eq.
Qed.

Lemma uploadDocument_compensating_delete_witness :
  resolves (Env.remove_fault env_rollback_refused [storage_key env_rollback_refused tds_pdf])
  /\ exists w',
       uploadDocument env_rollback_refused tds_pdf "wall" None empty_world =
       (Thrown (Error "insert failed"), w')
       /\ last (World.calls w') = Some (StorageRemove [stored_key])
       /\ World.documents w' = World.documents empty_world.
Proof.
  split; [exact I|].
  destruct (uploadDocument_compensating_delete env_rollback_refused tds_pdf "wall" None
              empty_world "insert failed" eq_refl eq_refl I eq_refl I)
    as (w' & Hrun & Hcalls & Hdocs & _).
  exists w'. split; [exact Hrun|]. split; [|exact Hdocs].
  rewrite Hcalls. reflexivity.
Defined.

(** ** C3: the locator of a persisted record *)

(** C3 as stated fails when the bucket yields no public locator: the
    upload succeeds and the record it persists has an empty [url]. *)
Lemma uploadDocument_empty_url :
  exists (d : Document.t) (w' : World.t),
    uploadDocument env_no_locator tds_pdf "structural-floor" None empty_world = (Returned d, w')
    /\ World.documents w' !! Document.id d = Some d
    /\ Document.url d = "".
Proof.
  eexists. eexists. split; [vm_compute; reflexivity|]. split; vm_compute; reflexivity.
Qed.

(** C3, amended: the record a successful upload persists has as [url] the
    public locator the bucket yields for the written key when it yields a
    non-empty one, and the empty string otherwise; its [url] is non-empty
    exactly when the bucket yields a non-empty locator. *)
Theorem uploadDocument_url
    (env : Env.t) (file : File.t) (productType : string)
    (onProgress : option Observer) (w w' : World.t) (d : Document.t) :
  uploadDocument env file productType onProgress w = (Returned d, w') ->
  World.documents w' !! Document.id d = Some d
  /\ Document.url d = Js.or_else (Env.publicUrl env (storage_key env file)) ""
  /\ (Document.url d <> "" <->
      exists locator, Env.publicUrl env (storage_key env file) = Some locator
                      /\ locator <> "").
Proof.
  intros Hrun.
  apply uploadDocument_persisted in Hrun as (Hstored & Hurl & _).
  split; [exact Hstored|]. split; [exact Hurl|].
  rewrite Hurl. unfold upload_url, Js.or_else, Js.truthy.
  destruct (Env.publicUrl env (storage_key env file)) as [locator|].
  - destruct (String.eqb_spec locator "") as [->|Hne]; cbn.
    + split; [congruence | intros (l & Hl & Hne); congruence].
    + split; [intros _; exists locator; auto | auto].
  - split; [congruence | intros (l & Hl & _); discriminate].
Qed.

Lemma uploadDocument_url_witness :
  exists (d : Document.t) (w' : World.t),
    uploadDocument env_ok tds_pdf "structural-floor" None empty_world = (Returned d, w')
    /\ World.documents w' !! Document.id d = Some d
    /\ Document.url d = public_base +:+ "1700000000000-k3j9x0q1z-XYZ-TDS-2023.pdf".
Proof.
  destruct (uploadDocument env_ok tds_pdf "structural-floor" None empty_world)
    as [[d|e] w'] eqn:Hrun; [|vm_compute in Hrun; discriminate Hrun].
  exists d, w'. split; [reflexivity|].
  destruct (uploadDocument_url env_ok tds_pdf "structural-floor" None empty_world w' d Hrun)
    as (Hstored & Hurl & _).
  split; [exact Hstored | exact Hurl].
Defined.

(** ** C8: upload, then get by id *)

Lemma getDocument_answered (env : Env.t) (id : string) (w : World.t) :
  Env.select_by_id_fault env id = None ->
  getDocument env id w = (Returned (World.documents w !! id), World.issue (DbSelectById id) w).
Proof.
  intros H. unfold getDocument, db_select_by_id. run. rewrite H. reflexivity.
Qed.

(** C8: after a successful upload, getting the document by the id it was
    assigned returns the persisted record, whose filename and size are
    those of the uploaded file and whose type is the one the upload
    derived from the filename. *)
Theorem upload_then_getDocument
    (env env' : Env.t) (file : File.t) (productType : string)
    (onProgress : option Observer) (w w1 : World.t) (d : Document.t) :
  uploadDocument env file productType onProgress w = (Returned d, w1) ->
  Env.select_by_id_fault env' (Document.id d) = None ->
  exists w2,
    getDocument env' (Document.id d) w1 = (Returned (Some d), w2)
    /\ Document.filename d = File.name file
    /\ Document.size d = File.size file
    /\ Document.type d = detectDocumentType (File.name file).
Proof.
  intros Hrun Hselect.
  apply uploadDocument_persisted in Hrun as (Hstored & _ & Hname & Hsize & Htype).
  exists (World.issue (DbSelectById (Document.id d)) w1).
  rewrite getDocument_answered by exact Hselect. rewrite Hstored.
  repeat split; assumption.
Qed.

Lemma upload_then_getDocument_witness :
  exists (d : Document.t) (w1 w2 : World.t),
    uploadDocument env_ok tds_pdf "structural-floor" None empty_world = (Returned d, w1)
    /\ getDocument env_ok (Document.id d) w1 = (Returned (Some d), w2)
    /\ Document.filename d = "XYZ-TDS-2023.pdf"
    /\ Document.size d = 2048%N
    /\ Document.type d = TDS.
Proof.
  destruct (uploadDocument env_ok tds_pdf "structural-floor" None empty_world)
    as [[d|e] w1] eqn:Hrun; [|vm_compute in Hrun; discriminate Hrun].
  destruct (upload_then_getDocument env_ok env_ok tds_pdf "structural-floor" None
              empty_world w1 d Hrun eq_refl) as (w2 & Hget & Hname & Hsize & Htype).
  exists d, w1, w2. repeat split; assumption.
Defined.

(** ** Splitting a locator *)

Lemma no_slash_nil : ~ Substring "/" "".
Proof. intros ([|] & b & H); discriminate H. Qed.

Lemma no_slash_cons (a : ascii) (s : string) :
  a <> "/"%char -> ~ Substring "/" s -> ~ Substring "/" (String a s).
Proof.
  intros Ha Hs ([|x pre] & post & H).
  - rewrite append_nil, append_cons in H. congruence.
  - rewrite append_cons in H. apply Hs. exists pre, post. congruence.
Qed.

Lemma split_shape (s : string) :
  exists head rest,
    Js.split "/" s = head :: rest
    /\ ~ Substring "/" head
    /\ match last rest with
       | None => s = head
       | Some segment => ~ Substring "/" segment /\ exists before, s = before +:+ "/" +:+ segment
       end.
Proof.
  induction s as [|a s (head & rest & Hsplit & Hhead & Hlast)].
  - exists "", []. repeat split. apply no_slash_nil.
  - cbn [Js.split]. rewrite Hsplit.
    destruct (Ascii.eqb_spec a "/") as [->|Ha].
    + exists "", (head :: rest). split; [reflexivity|]. split; [apply no_slash_nil|].
      rewrite last_cons. destruct (last rest) as [segment|].
      * destruct Hlast as (Hseg & before & ->). split; [exact Hseg|].
        exists (String "/" before). reflexivity.
      * subst s. split; [exact Hhead|]. exists "". reflexivity.
    + exists (String a head), rest. split; [reflexivity|].
      split; [apply no_slash_cons; assumption|].
      destruct (last rest) as [segment|].
      * destruct Hlast as (Hseg & before & ->). split; [exact Hseg|].
        exists (String a before). reflexivity.
      * subst s. reflexivity.
Qed.

(** [url.split('/').pop()] is the final path segment of [url]. *)
Lemma split_pop (url : string) :
  exists segment, Js.pop (Js.split "/" url) = Some segment /\ final_segment url segment.
Proof.
  destruct (split_shape url) as (head & rest & Hsplit & Hhead & Hlast).
  unfold Js.pop. rewrite Hsplit, last_cons. unfold final_segment.
  destruct (last rest) as [segment|].
  - exists segment. destruct Hlast as (Hseg & before & ->). eauto.
  - exists head. subst url. auto.
Qed.

Lemma final_segment_unique (url s1 s2 : string) :
  final_segment url s1 -> final_segment url s2 -> s1 = s2.
Proof.
  intros [H1 [E1|[b1 E1]]] [H2 [E2|[b2 E2]]].
  - congruence.
  - exfalso. apply H1. exists b2, s2. congruence.
  - exfalso. apply H2. exists b1, s1. congruence.
  - subst url. revert b2 E2. induction b1 as [|c b1 IH]; intros [|c2 b2] E2;
      repeat (rewrite append_cons in E2 || rewrite append_nil in E2).
    + congruence.
    + exfalso. apply H1. exists b2, s2. injection E2 as _ E2. exact E2.
    + exfalso. apply H2. exists b1, s1. injection E2 as _ E2. symmetry. exact E2.
    + injection E2 as _ E2. apply (IH b2). exact E2.
Qed.

(** ** Deleting a document (C6, C10) *)

Section Delete.
Context (env : Env.t) (id : string) (w : World.t).

Lemma deleteDocument_absent :
  World.documents w !! id = None ->
  Env.select_by_id_fault env id = None ->
  deleteDocument env id w =
  (Thrown (Error "Document not found"),
   World.print "Failed to delete document:" (Error "Document not found")
     (World.issue (DbSelectById id) w)).
Proof.
  intros Habsent Hselect. unfold deleteDocument, try_catch.
  unfold mbind at 1. unfold M_bind.
  rewrite getDocument_answered by exact Hselect. rewrite Habsent. reflexivity.
Qed.

Lemma deleteDocument_present (d : Document.t) (segment : string) :
  World.documents w !! id = Some d ->
  Env.select_by_id_fault env id = None ->
  Env.delete_fault env id = None ->
  Js.truthy (Document.url d) = true ->
  Js.pop (Js.split "/" (Document.url d)) = Some segment ->
  deleteDocument env id w =
  if Js.truthy segment then
    let w3 := World.issue (StorageRemove [segment]) (after_row_delete id w) in
    match Env.remove_fault env [segment] with
    | Some (Reject e) =>
        (Returned tt, World.print "Failed to delete file from storage:" e w3)
    | Some (Refuse _) => (Returned tt, w3)
    | None => (Returned tt, World.set_bucket (delete segment (World.bucket w3)) w3)
    end
  else (Returned tt, after_row_delete id w).
Proof.
  intros Hfound Hselect Hdelete Hurl Hpop. unfold deleteDocument, try_catch.
  unfold mbind at 1. unfold M_bind.
  rewrite getDocument_answered by exact Hselect. rewrite Hfound.
  unfold mbind at 1. unfold M_bind, db_delete. cbv beta iota zeta.
  rewrite Hdelete, Hurl, Hpop.
  fold (after_row_delete id w).
  destruct (Js.truthy segment); [|reflexivity].
  unfold mbind, M_bind, storage_remove. cbv beta iota zeta.
  destruct (Env.remove_fault env [segment]) as [[m|e]|]; reflexivity.
Qed.
End Delete.

Lemma truthy_spec (s : string) : Js.truthy s = true <-> s <> "".
Proof.
  unfold Js.truthy. destruct (String.eqb_spec s ""); cbn; split; congruence.
Qed.

(** C6 as stated fails: deleting an id that the table does not hold
    throws an [Error], as every failure of the operation does. *)
Lemma deleteDocument_missing_id_throws :
  World.documents empty_world !! "missing" = None
  /\ fst (deleteDocument env_ok "missing" empty_world) = Thrown (Error "Document not found")
  /\ forall v, fst (deleteDocument env_ok "missing" empty_world) <> Returned v.
Proof.
  split; [reflexivity|]. split; [reflexivity|]. intros v. discriminate.
Qed.

(** C6, amended: for every id not present in the table, [deleteDocument]
    throws an [Error] whose message is "Document not found" after the
    lookup alone: it deletes no row and removes no blob. Absence is a
    non-error outcome only for [getDocument], which returns [null]. *)
Theorem deleteDocument_not_found (env : Env.t) (id : string) (w : World.t) :
  World.documents w !! id = None ->
  Env.select_by_id_fault env id = None ->
  exists w' w'',
    deleteDocument env id w = (Thrown (Error "Document not found"), w')
    /\ World.calls w' = (World.calls w ++ [DbSelectById id])%list
    /\ World.documents w' = World.documents w
    /\ World.bucket w' = World.bucket w
    /\ getDocument env id w = (Returned None, w'').
Proof.
  intros Habsent Hselect.
  eexists. eexists. split; [apply deleteDocument_absent; assumption|].
  repeat split. rewrite getDocument_answered by exact Hselect.
  rewrite Habsent. reflexivity.
Qed.

Lemma deleteDocument_not_found_witness :
  World.documents world_with_doc !! "doc-2" = None
  /\ exists w' w'',
       deleteDocument env_ok "doc-2" world_with_doc = (Thrown (Error "Document not found"), w')
       /\ World.calls w' = [DbSelectById "doc-2"]
       /\ World.documents w' = World.documents world_with_doc
       /\ World.bucket w' = World.bucket world_with_doc
       /\ getDocument env_ok "doc-2" world_with_doc = (Returned None, w'').
Proof.
  assert (World.documents world_with_doc !! "doc-2" = None) as Habsent
    by (vm_compute; reflexivity).
  split; [exact Habsent|].
  exact (deleteDocument_not_found env_ok "doc-2" world_with_doc Habsent eq_refl).
Defined.

(** C10: for every stored document with a non-empty [url], once its row
    is deleted [deleteDocument] takes as blob key the final path segment
    of the [url] (what follows its last [/]; the record holds no storage
    key of its own) and issues the remove call for that key alone; when
    the segment is empty it issues no remove call. It returns normally
    however the remove call ends. *)
Theorem deleteDocument_blob_key
    (env : Env.t) (id : string) (w : World.t) (d : Document.t) :
  World.documents w !! id = Some d ->
  Document.url d <> "" ->
  Env.select_by_id_fault env id = None ->
  Env.delete_fault env id = None ->
  exists segment w',
    final_segment (Document.url d) segment
    /\ (forall other, final_segment (Document.url d) other -> other = segment)
    /\ deleteDocument env id w = (Returned tt, w')
    /\ World.calls w' =
       (World.calls w ++ [DbSelectById id; DbDelete id]
        ++ (if String.eqb segment "" then [] else [StorageRemove [segment]]))%list.
Proof.
  intros Hfound Hurl Hselect Hdelete.
  destruct (split_pop (Document.url d)) as (segment & Hpop & Hfinal).
  apply truthy_spec in Hurl.
  pose proof (deleteDocument_present env id w d segment Hfound Hselect Hdelete Hurl Hpop)
    as Hrun.
  exists segment. unfold Js.truthy in Hrun.
  destruct (String.eqb segment "").
  - exists (after_row_delete id w). split; [exact Hfinal|].
    split; [intros other Hother; eapply final_segment_unique; eassumption|].
    split; [exact Hrun|]. cbn. rewrite <- List.app_assoc. reflexivity.
  - cbn in Hrun.
    destruct (Env.remove_fault env [segment]) as [[m|e]|];
      (eexists; split; [exact Hfinal|];
       split; [intros other Hother; eapply final_segment_unique; eassumption|];
       split; [exact Hrun|]; cbn; rewrite <- !List.app_assoc; reflexivity).
Qed.

Lemma deleteDocument_blob_key_witness :
  World.documents world_with_doc !! "doc-1" = Some stored_doc
  /\ exists w',
       deleteDocument env_ok "doc-1" world_with_doc = (Returned tt, w')
       /\ World.calls w' = [DbSelectById "doc-1"; DbDelete "doc-1"; StorageRemove [stored_key]].
Proof.
  assert (World.documents world_with_doc !! "doc-1" = Some stored_doc) as Hfound
    by (vm_compute; reflexivity).
  split; [exact Hfound|].
  assert (Document.url stored_doc <> "") as Hurl by discriminate.
  destruct (deleteDocument_blob_key env_ok "doc-1" world_with_doc stored_doc
              Hfound Hurl eq_refl eq_refl) as (segment & w' & Hfinal & _ & Hrun & Hcalls).
  assert (segment = stored_key) as ->.
  { eapply final_segment_unique; [exact Hfinal|].
    split; [apply includes_false; reflexivity|].
    right. exists "https://project.supabase.co/storage/v1/object/public/documents".
    reflexivity. }
  exists w'. split; [exact Hrun | exact Hcalls].
Defined.

(** ** The batch export (C4) *)

Lemma insert_newest_first_length (d : Document.t) (sorted : list Document.t) :
  length (insert_newest_first d sorted) = S (length sorted).
Proof.
  induction sorted as [|d' rest IH]; [reflexivity|].
  cbn. destruct (created_before d d'); cbn; rewrite ?IH; reflexivity.
Qed.

Lemma newest_first_length (rows : list Document.t) :
  length (newest_first rows) = length rows.
Proof.
  induction rows as [|d rows IH]; [reflexivity|].
  change (newest_first (d :: rows)) with (insert_newest_first d (newest_first rows)).
  rewrite insert_newest_first_length, IH. reflexivity.
Qed.

Lemma stored_documents_length (w : World.t) :
  length (stored_documents w) = size (World.documents w).
Proof.
  unfold stored_documents.
  rewrite newest_first_length, length_fmap. apply length_map_to_list.
Qed.

Section BatchExport.
Context (env : Env.t).

Lemma export_one_spec (i : nat) (d : Document.t) (results : list Materialized)
    (w : World.t) :
  exists w',
    export_one env i d results w = (Returned (results ++ entry env i d)%list, w')
    /\ World.calls w' =
       (World.calls w ++ (if has_locator d then [HttpFetch (Document.url d)] else []))%list
    /\ World.documents w' = World.documents w
    /\ World.bucket w' = World.bucket w.
Proof.
  unfold export_one, entry, fetched, has_locator, try_catch.
  destruct (Js.truthy (Document.url d)).
  - unfold mbind, M_bind, http_fetch. cbv beta iota zeta.
    destruct (Env.fetch env i (Document.url d)) as [e|[|] [e|[e|dataUrl]]];
      cbn; rewrite ?List.app_nil_r; eexists; repeat split.
  - cbn. rewrite !List.app_nil_r. eexists; repeat split.
Qed.

Lemma export_from_spec (documents : list Document.t) :
  forall (i : nat) (results : list Materialized) (w : World.t),
  exists w',
    export_from env i documents results w =
    (Returned (results ++ entries_from env i documents)%list, w')
    /\ World.calls w' = (World.calls w ++ fetch_calls documents)%list
    /\ World.documents w' = World.documents w
    /\ World.bucket w' = World.bucket w.
Proof.
  induction documents as [|d rest IH]; intros i results w.
  - exists w. cbn. rewrite !List.app_nil_r. repeat split.
  - destruct (export_one_spec i d results w) as (w1 & Hone & Hcalls1 & Hdocs1 & Hbucket1).
    destruct (IH (S i) (results ++ entry env i d)%list w1)
      as (w2 & Hrest & Hcalls2 & Hdocs2 & Hbucket2).
    exists w2. cbn [export_from entries_from].
    unfold mbind, M_bind. rewrite Hone, Hrest.
    rewrite List.app_assoc. split; [reflexivity|].
    split; [|split; congruence].
    rewrite Hcalls2, Hcalls1, <- List.app_assoc. f_equal.
    unfold fetch_calls. rewrite filter_cons.
    destruct (decide (has_locator d = true)) as [Hloc|Hloc].
    + rewrite Hloc. reflexivity.
    + apply not_true_is_false in Hloc. rewrite Hloc. reflexivity.
Qed.

(** Every document is materialized, has no locator, or sees its fetch fail. *)
Lemma entries_from_length (documents : list Document.t) (i : nat) :
  (length (entries_from env i documents) + unlocated documents
   + failures_from env i documents = length documents)%nat.
Proof.
  revert i. induction documents as [|d rest IH]; intros i; [reflexivity|].
  cbn [entries_from failures_from length]. rewrite List.length_app.
  specialize (IH (S i)). unfold unlocated in *. rewrite filter_cons.
  unfold entry, fetch_fails.
  destruct (has_locator d) eqn:Hloc.
  - destruct (decide (true = false)) as [Hcontra|_]; [discriminate|].
    destruct (fetched env i d) as [m|]; cbn; lia.
  - destruct (decide (false = false)) as [_|Hcontra]; [|contradiction].
    cbn. lia.
Qed.

Lemma getAllDocuments_answered (w : World.t) :
  Env.select_fault env = None ->
  getAllDocuments env w = (Returned (stored_documents w), World.issue DbSelectAll w).
Proof.
  intros H. unfold getAllDocuments, db_select_all. run. rewrite H. reflexivity.
Qed.

Lemma getAllDocumentsWithData_spec (w : World.t) :
  Env.select_fault env = None ->
  exists w',
    getAllDocumentsWithData env w =
    (Returned (entries_from env 0 (stored_documents w)), w')
    /\ World.calls w' = (World.calls w ++ DbSelectAll :: fetch_calls (stored_documents w))%list.
Proof.
  intros Hselect. unfold getAllDocumentsWithData, try_catch.
  unfold mbind, M_bind. rewrite getAllDocuments_answered by exact Hselect.
  destruct (export_from_spec (stored_documents w) 0 [] (World.issue DbSelectAll w))
    as (w' & Hrun & Hcalls & _).
  rewrite Hrun. exists w'. split; [reflexivity|].
  rewrite Hcalls. cbn. rewrite <- List.app_assoc. reflexivity.
Qed.
End BatchExport.

Lemma entry_In (env : Env.t) (i : nat) (d : Document.t) (m : Materialized) :
  In m (entry env i d) <-> has_locator d = true /\ fetched env i d = Some m.
Proof.
  unfold entry. destruct (has_locator d).
  - destruct (fetched env i d) as [m'|]; cbn.
    + split; [intros [->|[]]; auto | intros [_ H]; left; congruence].
    + split; [intros [] | intros [_ H]; discriminate].
  - cbn. split; [intros [] | intros [H _]; discriminate].
Qed.

Lemma fetched_doc (env : Env.t) (i : nat) (d : Document.t) (m : Materialized) :
  fetched env i d = Some m -> doc m = d.
Proof.
  unfold fetched.
  destruct (Env.fetch env i (Document.url d)) as [e|[|] [e|[e|dataUrl]]];
    intros H; try discriminate H. injection H as <-. reflexivity.
Qed.

(** The entries are those of the documents that have a locator and whose
    fetch succeeds, each at its position. *)
Lemma entries_from_In (env : Env.t) (documents : list Document.t) (i : nat)
    (m : Materialized) :
  In m (entries_from env i documents) <->
  exists j, documents !! j = Some (doc m)
            /\ has_locator (doc m) = true
            /\ fetched env (i + j) (doc m) = Some m.
Proof.
  revert i. induction documents as [|d rest IH]; intros i.
  - cbn. split; [intros [] | intros (j & H & _); destruct j; discriminate H].
  - cbn [entries_from]. rewrite List.in_app_iff, entry_In, IH. split.
    + intros [[Hloc Hfetched] | (j & Hj & Hloc & Hfetched)].
      * pose proof (fetched_doc _ _ _ _ Hfetched) as <-.
        exists 0%nat. rewrite Nat.add_0_r. auto.
      * exists (S j). rewrite Nat.add_succ_r. auto.
    + intros ([|j] & Hj & Hloc & Hfetched).
      * left. cbn in Hj. injection Hj as ->. rewrite Nat.add_0_r in Hfetched. auto.
      * right. exists j. rewrite Nat.add_succ_r in Hfetched. auto.
Qed.

(** C4 as stated fails on a list that holds a document with no locator:
    of two stored documents, one without locator and one whose fetch
    fails, the export returns no entry, not [2 - 1]. *)
Lemma export_of_draft_and_failure :
  failures_from env_ok 0 (stored_documents world_with_draft) = 1%nat
  /\ exists results w',
       getAllDocumentsWithData env_ok world_with_draft = (Returned results, w')
       /\ length (stored_documents world_with_draft) = 2%nat
       /\ length results = 0%nat
       /\ length results <> (length (stored_documents world_with_draft) - 1)%nat.
Proof.
  split; [vm_compute; reflexivity|].
  eexists. eexists. split; [vm_compute; reflexivity|].
  repeat split; try (vm_compute; reflexivity). vm_compute. discriminate.
Qed.

(** C4, amended: for every table of N documents, k of them with no
    locator, in which exactly one blob fetch fails during the export, the
    export returns exactly N - 1 - k entries: those of the documents that
    have a locator and whose fetch succeeds, each with the payload read
    from its blob. It issues a fetch for the documents with a locator and
    for no other, and it returns normally. *)
Theorem getAllDocumentsWithData_one_failure (env : Env.t) (w : World.t) :
  Env.select_fault env = None ->
  failures_from env 0 (stored_documents w) = 1%nat ->
  exists results w',
    getAllDocumentsWithData env w = (Returned results, w')
    /\ length (stored_documents w) = size (World.documents w)
    /\ length results =
       (size (World.documents w) - 1 - unlocated (stored_documents w))%nat
    /\ (forall m, In m results <->
          exists j, stored_documents w !! j = Some (doc m)
                    /\ has_locator (doc m) = true
                    /\ fetched env j (doc m) = Some m)
    /\ World.calls w' =
       (World.calls w ++ DbSelectAll :: fetch_calls (stored_documents w))%list.
Proof.
  intros Hselect Hone.
  destruct (getAllDocumentsWithData_spec env w Hselect) as (w' & Hrun & Hcalls).
  exists (entries_from env 0 (stored_documents w)), w'.
  split; [exact Hrun|]. split; [apply stored_documents_length|].
  split; [|split; [|exact Hcalls]].
  - pose proof (entries_from_length env (stored_documents w) 0) as Hlen.
    rewrite stored_documents_length in Hlen. lia.
  - intros m. apply (entries_from_In env (stored_documents w) 0).
Qed.

Lemma getAllDocumentsWithData_one_failure_witness :
  failures_from env_first_fetch_only 0 (stored_documents world_with_two) = 1%nat
  /\ exists results w',
       getAllDocumentsWithData env_first_fetch_only world_with_two = (Returned results, w')
       /\ length results = 1%nat.
Proof.
  assert (failures_from env_first_fetch_only 0 (stored_documents world_with_two) = 1%nat)
    as Hone by (vm_compute; reflexivity).
  split; [exact Hone|].
  destruct (getAllDocumentsWithData_one_failure env_first_fetch_only world_with_two
              eq_refl Hone) as (results & w' & Hrun & _ & Hlen & _).
  exists results, w'. split; [exact Hrun|].
  rewrite Hlen. vm_compute. reflexivity.
Defined.

(** * Further properties of the service *)

(** ** The validator and the classifier *)

(** X1: [validatePDF] accepts a file exactly when its media type is
    [application/pdf], its size lies between 1024 and 50 * 1024 * 1024
    bytes, its content can be read and starts with [%PDF]. *)
Theorem validatePDF_accept_iff (file : File.t) :
  validatePDF file = accept <->
  File.type file = "application/pdf"
  /\ (1024 <= File.size file <= 50 * 1024 * 1024)%N
  /\ File.readable file = true
  /\ signed (File.content file).
Proof.
  split.
  - intros Haccept.
    assert (valid (validatePDF file) = true) as Hvalid by (rewrite Haccept; reflexivity).
    apply validatePDF_valid_inv in Hvalid as ([Htype Hsize] & Hread & Hsig). auto.
  - intros (Htype & Hsize & Hread & Hsig).
    apply validatePDF_valid_intro; [split|..]; assumption.
Qed.

Lemma validatePDF_reason_listed (file : File.t) :
  valid (validatePDF file) = false ->
  exists reason, validatePDF file = reject reason /\ In reason rejection_reasons.
Proof.
  unfold validatePDF, rejection_reasons.
  repeat match goal with
         | |- context [if ?b then _ else _] => destruct b
         | |- context [match ?o with Some _ => _ | None => _ end] => destruct o
         end; simpl; intros H; try discriminate H;
    eexists; (split; [reflexivity|]); simpl; tauto.
Qed.

(** X2: whenever [uploadDocument] rejects a file as invalid, the error it
    throws carries one of the five reasons of [validatePDF]; the fallback
    message "Invalid PDF file" is never thrown. *)
Theorem uploadDocument_invalid_reason
    (env : Env.t) (file : File.t) (productType : string)
    (onProgress : option Observer) (w : World.t) :
  valid (validatePDF file) = false ->
  exists reason,
    fst (uploadDocument env file productType onProgress w) = Thrown (Error reason)
    /\ In reason rejection_reasons
    /\ reason <> "Invalid PDF file".
Proof.
  intros Hinvalid.
  destruct (validatePDF_reason_listed file Hinvalid) as (reason & Hverdict & Hin).
  destruct (uploadDocument_invalid env file productType onProgress w Hinvalid)
    as (reason' & Hverdict' & Hrun).
  rewrite Hverdict in Hverdict'. injection Hverdict' as <-.
  exists reason. rewrite Hrun. split; [reflexivity|]. split; [exact Hin|].
  intros ->. simpl in Hin. intuition discriminate.
Qed.

Lemma uploadDocument_invalid_reason_witness :
  valid (validatePDF tiny_pdf) = false
  /\ exists reason,
       fst (uploadDocument env_ok tiny_pdf "wall" None empty_world) = Thrown (Error reason)
       /\ In reason rejection_reasons
       /\ reason <> "Invalid PDF file".
Proof.
  split; [reflexivity|].
  apply (uploadDocument_invalid_reason env_ok tiny_pdf "wall" None empty_world).
  reflexivity.
Defined.

Lemma typeMap_truthy (type : DocumentType) : Js.truthy (typeMap type) = true.
Proof. destruct type; reflexivity. Qed.

Lemma extractDocumentName_typeMap (filename : string) (type : DocumentType) :
  extractDocumentName filename type = typeMap type.
Proof.
  unfold extractDocumentName, Js.or_else. rewrite typeMap_truthy. reflexivity.
Qed.

(** X3: [extractDocumentName] returns the label of the type whatever the
    filename is: every type has a non-empty label, so the filename
    stripped of its extension is never used, and two files of the same
    type get the same name. *)
Theorem extractDocumentName_label (filename other : string) (type : DocumentType) :
  extractDocumentName filename type = typeMap type
  /\ typeMap type <> ""
  /\ extractDocumentName filename type = extractDocumentName other type.
Proof.
  split; [apply extractDocumentName_typeMap|].
  split; [apply truthy_spec, typeMap_truthy|].
  rewrite !extractDocumentName_typeMap. reflexivity.
Qed.

Lemma lower_char_idempotent (c : ascii) :
  Js.lower_char (Js.lower_char c) = Js.lower_char c.
Proof.
  destruct c as [[] [] [] [] [] [] [] []]; reflexivity.
Qed.

Lemma toLowerCase_idempotent (s : string) :
  Js.toLowerCase (Js.toLowerCase s) = Js.toLowerCase s.
Proof.
  induction s as [|c s IH]; [reflexivity|].
  cbn [Js.toLowerCase]. rewrite lower_char_idempotent, IH. reflexivity.
Qed.

(** X4: the classification does not depend on the case of the filename:
    a filename and its lower-cased form get the same type, and so do any
    two filenames that differ only in the case of their letters. *)
Theorem detectDocumentType_case_insensitive (filename : string) :
  detectDocumentType (Js.toLowerCase filename) = detectDocumentType filename
  /\ forall other : string,
       Js.toLowerCase other = Js.toLowerCase filename ->
       detectDocumentType other = detectDocumentType filename.
Proof.
  split.
  - unfold detectDocumentType. rewrite toLowerCase_idempotent. reflexivity.
  - intros other H. unfold detectDocumentType. rewrite H. reflexivity.
Qed.

Lemma detectDocumentType_case_insensitive_witness :
  Js.toLowerCase "Install-GUIDE.PDF" = Js.toLowerCase "install-guide.pdf"
  /\ detectDocumentType "Install-GUIDE.PDF" = detectDocumentType "install-guide.pdf".
Proof.
  split; [reflexivity|].
  apply (proj2 (detectDocumentType_case_insensitive "install-guide.pdf")).
  reflexivity.
Defined.

(** ** The upload pipeline *)

Section UploadEffects.
Context (env : Env.t) (file : File.t) (productType : string)
        (onProgress : option Observer) (w : World.t).

(** X5: when the blob write fails, [uploadDocument] throws the write
    error ([new Error(message)] for a refused write, the rejection for a
    rejected one) after that single call: no locator is asked for, no row
    is inserted, and the table and the bucket are as before. *)
Theorem uploadDocument_blob_write_failure (fault : Fault) :
  valid (validatePDF file) = true ->
  Env.upload_fault env (storage_key env file) = Some fault ->
  exists w',
    uploadDocument env file productType onProgress w = (Thrown (thrown_for fault), w')
    /\ World.calls w' =
       (World.calls w ++ [StorageUpload (storage_key env file) (File.content file)])%list
    /\ World.documents w' = World.documents w
    /\ World.bucket w' = World.bucket w.
Proof.
  intros Hvalid Hupload.
  unfold uploadDocument, try_catch. rewrite Hvalid. cbv [negb].
  unfold mbind, M_bind, storage_upload. rewrite Hupload.
  destruct fault as [message|e]; eexists; repeat split.
Qed.

(** X6: a returned upload has issued exactly the blob write, the locator
    request and the insert, in this order, and no remove call; it has
    added the file's content to the bucket under the storage key and the
    returned record to the table under its id, and has logged nothing. *)
Theorem uploadDocument_success_effects (w' : World.t) (d : Document.t) :
  uploadDocument env file productType onProgress w = (Returned d, w') ->
  World.calls w' =
    (World.calls w ++
     [StorageUpload (storage_key env file) (File.content file);
      StorageGetPublicUrl (storage_key env file);
      DbInsert (upload_document env file productType)])%list
  /\ World.bucket w' = <[storage_key env file := File.content file]> (World.bucket w)
  /\ World.documents w' = <[Document.id d := d]> (World.documents w)
  /\ World.console w' = World.console w.
Proof.
  intros Hrun. apply uploadDocument_returned in Hrun as (_ & _ & _ & Hd & ->).
  cbn. rewrite <- !List.app_assoc. repeat split.
  rewrite Hd at 2. reflexivity.
Qed.

(** X7: the record a returned upload persists has a size between 1024 and
    50 * 1024 * 1024 bytes, is not required, carries the label of its type
    as name and "<type> Document" as description, keeps the product type
    it was uploaded for, and has a non-empty list of products: the single
    3/4-in for [structural-floor], the 1/2-in and the 5/8-in otherwise. *)
Theorem uploadDocument_record_invariants (w' : World.t) (d : Document.t) :
  uploadDocument env file productType onProgress w = (Returned d, w') ->
  (1024 <= Document.size d <= 50 * 1024 * 1024)%N
  /\ Document.required d = false
  /\ Document.name d = typeMap (Document.type d)
  /\ Document.description d = DocumentType_name (Document.type d) +:+ " Document"
  /\ Document.product_type d = productType
  /\ Document.products d <> []
  /\ (productType = "structural-floor" -> Document.products d = ["3/4-in (20mm)"])
  /\ (productType <> "structural-floor" ->
      Document.products d = ["1/2-in (13mm)"; "5/8-in (16mm)"]).
Proof.
  intros Hrun. apply uploadDocument_returned in Hrun as (Hvalid & _ & _ & -> & _).
  apply validatePDF_valid_inv in Hvalid as ([_ Hsize] & _).
  cbn. unfold products_of.
  split; [exact Hsize|]. split; [reflexivity|].
  split; [apply extractDocumentName_typeMap|]. split; [reflexivity|].
  split; [reflexivity|].
  destruct (String.eqb_spec productType "structural-floor") as [->|Hne].
  - repeat split; try discriminate. intros H. contradiction.
  - repeat split; try discriminate. intros H. contradiction.
Qed.

(** X8: when the progress observer throws at the 50% checkpoint, the
    upload throws the same exception with the blob already written and
    left in the bucket: no row is inserted and no remove call is issued. *)
Theorem uploadDocument_observer_throws_at_50 (observer : Observer) (e : Exn) :
  valid (validatePDF file) = true ->
  Env.upload_fault env (storage_key env file) = None ->
  onProgress = Some observer ->
  observer 50%N = Some e ->
  exists w',
    uploadDocument env file productType onProgress w = (Thrown e, w')
    /\ World.bucket w' !! storage_key env file = Some (File.content file)
    /\ World.documents w' = World.documents w
    /\ World.calls w' =
       (World.calls w ++ [StorageUpload (storage_key env file) (File.content file)])%list.
Proof.
  intros Hvalid Hupload -> H50.
  unfold uploadDocument, try_catch. rewrite Hvalid. cbv [negb].
  unfold mbind, M_bind, storage_upload. rewrite Hupload. cbv beta iota zeta.
  unfold notify. rewrite H50.
  eexists. split; [reflexivity|]. cbn. split; [apply lookup_insert_eq|]. split; reflexivity.
Qed.

(** X9: when the progress observer throws at the 100% checkpoint, the
    upload throws the same exception although the record is persisted and
    the blob stored: the table holds the new row under the assigned id,
    and no remove call follows the insert. *)
Theorem uploadDocument_observer_throws_at_100 (observer : Observer) (e : Exn) :
  valid (validatePDF file) = true ->
  Env.upload_fault env (storage_key env file) = None ->
  Env.insert_fault env (upload_document env file productType) = None ->
  onProgress = Some observer ->
  observer 50%N = None ->
  observer 100%N = Some e ->
  exists w',
    uploadDocument env file productType onProgress w = (Thrown e, w')
    /\ World.documents w' !! Env.new_id env =
       Some (Document.of_new (Env.new_id env) (Env.timestamp env)
               (upload_document env file productType))
    /\ World.bucket w' !! storage_key env file = Some (File.content file)
    /\ World.calls w' =
       (World.calls w ++
        [StorageUpload (storage_key env file) (File.content file);
         StorageGetPublicUrl (storage_key env file);
         DbInsert (upload_document env file productType)])%list.
Proof.
  intros Hvalid Hupload Hinsert -> H50 H100.
  unfold uploadDocument, try_catch. rewrite Hvalid. cbv [negb].
  unfold mbind, M_bind, storage_upload. rewrite Hupload. cbv beta iota zeta.
  unfold notify. rewrite H50.
  unfold storage_getPublicUrl, db_insert, mret, M_ret. cbv beta iota zeta.
  fold (upload_url env file). fold (upload_document env file productType).
  rewrite Hinsert, H100.
  eexists. split; [reflexivity|]. cbn.
  split; [apply lookup_insert_eq|]. split; [apply lookup_insert_eq|].
  rewrite <- !List.app_assoc. reflexivity.
Qed.
End UploadEffects.

Lemma uploadDocument_blob_write_failure_witness :
  valid (validatePDF tds_pdf) = true
  /\ exists w',
       uploadDocument (env_failing (Some (Refuse "Bucket not found")) None None)
         tds_pdf "wall" None empty_world = (Thrown (Error "Bucket not found"), w')
       /\ World.documents w' = World.documents empty_world
       /\ World.bucket w' = World.bucket empty_world.
Proof.
  split; [reflexivity|].
  destruct (uploadDocument_blob_write_failure
              (env_failing (Some (Refuse "Bucket not found")) None None)
              tds_pdf "wall" None empty_world (Refuse "Bucket not found")
              eq_refl eq_refl) as (w' & Hrun & _ & Hdocs & Hbucket).
  exists w'. repeat split; assumption.
Defined.

Lemma uploadDocument_success_effects_witness :
  exists (d : Document.t) (w' : World.t),
    uploadDocument env_ok tds_pdf "wall" None empty_world = (Returned d, w')
    /\ World.calls w' =
       [StorageUpload stored_key (File.content tds_pdf);
        StorageGetPublicUrl stored_key;
        DbInsert (upload_document env_ok tds_pdf "wall")]
    /\ World.bucket w' = {[ stored_key := File.content tds_pdf ]}.
Proof.
  destruct (uploadDocument env_ok tds_pdf "wall" None empty_world)
    as [[d|e] w'] eqn:Hrun; [|vm_compute in Hrun; discriminate Hrun].
  destruct (uploadDocument_success_effects env_ok tds_pdf "wall" None empty_world w' d Hrun)
    as (Hcalls & Hbucket & _).
  exists d, w'. split; [reflexivity|]. split; [exact Hcalls | exact Hbucket].
Defined.

Lemma uploadDocument_record_invariants_witness :
  exists (d : Document.t) (w' : World.t),
    uploadDocument env_ok tds_pdf "structural-floor" None empty_world = (Returned d, w')
    /\ Document.name d = "Technical Data Sheet"
    /\ Document.description d = "TDS Document"
    /\ Document.products d = ["3/4-in (20mm)"].
Proof.
  destruct (uploadDocument env_ok tds_pdf "structural-floor" None empty_world)
    as [[d|e] w'] eqn:Hrun; [|vm_compute in Hrun; discriminate Hrun].
  destruct (uploadDocument_record_invariants env_ok tds_pdf "structural-floor" None
              empty_world w' d Hrun)
    as (_ & _ & Hname & Hdescr & _ & _ & Hfloor & _).
  assert (Document.type d = TDS) as Htype.
  { apply uploadDocument_persisted in Hrun as (_ & _ & _ & _ & Htype). exact Htype. }
  rewrite Htype in Hname, Hdescr.
  exists d, w'. split; [reflexivity|].
  split; [exact Hname|]. split; [exact Hdescr | exact (Hfloor eq_refl)].
Defined.

Lemma uploadDocument_observer_throws_at_50_witness :
  throws_at 50 50%N = Some (Error "observer failed")
  /\ exists w',
       uploadDocument env_ok tds_pdf "wall" (Some (throws_at 50)) empty_world =
       (Thrown (Error "observer failed"), w')
       /\ World.bucket w' !! stored_key = Some (File.content tds_pdf)
       /\ World.documents w' = World.documents empty_world.
Proof.
  split; [reflexivity|].
  destruct (uploadDocument_observer_throws_at_50 env_ok tds_pdf "wall"
              (Some (throws_at 50)) empty_world (throws_at 50) (Error "observer failed")
              eq_refl eq_refl eq_refl eq_refl) as (w' & Hrun & Hblob & Hdocs & _).
  exists w'. repeat split; assumption.
Defined.

Lemma uploadDocument_observer_throws_at_100_witness :
  throws_at 100 50%N = None
  /\ throws_at 100 100%N = Some (Error "observer failed")
  /\ exists w',
       uploadDocument env_ok tds_pdf "wall" (Some (throws_at 100)) empty_world =
       (Thrown (Error "observer failed"), w')
       /\ is_Some (World.documents w' !! "doc-1").
Proof.
  split; [reflexivity|]. split; [reflexivity|].
  destruct (uploadDocument_observer_throws_at_100 env_ok tds_pdf "wall"
              (Some (throws_at 100)) empty_world (throws_at 100) (Error "observer failed")
              eq_refl eq_refl eq_refl eq_refl eq_refl eq_refl)
    as (w' & Hrun & Hrow & _).
  exists w'. split; [exact Hrun|]. eexists. exact Hrow.
Defined.

(** X10: unless the progress observer throws at the 100% checkpoint, an
    upload that throws has left the table exactly as it was: whichever
    step failed, no row was inserted. *)
Theorem uploadDocument_throws_table_unchanged
    (env : Env.t) (file : File.t) (productType : string)
    (onProgress : option Observer) (w w' : World.t) (e : Exn) :
  observer_returns onProgress 100 ->
  uploadDocument env file productType onProgress w = (Thrown e, w') ->
  World.documents w' = World.documents w.
Proof.
  intros H100.
  unfold uploadDocument, try_catch.
  destruct (valid (validatePDF file)); cbv [negb];
    [|run; intros H; injection H as _ <-; reflexivity].
  unfold mbind, M_bind, storage_upload.
  destruct (Env.upload_fault env (storage_key env file)) as [[m|e1]|];
    [run; intros H; injection H as _ <-; reflexivity
    |run; intros H; injection H as _ <-; reflexivity|].
  cbv beta iota zeta.
  destruct (notify onProgress 50 _) as [[[]|e1] w1] eqn:H50;
    apply notify_world in H50; subst w1.
  2:{ run. intros H. injection H as _ <-. reflexivity. }
  unfold storage_getPublicUrl, db_insert. cbv beta iota zeta.
  destruct (Env.insert_fault env _) as [[m|e1]|].
  - unfold storage_remove. cbv beta iota zeta.
    destruct (Env.remove_fault env [storage_key env file]) as [[m'|e2]|];
      run; intros H; injection H as _ <-; reflexivity.
  - run. intros H. injection H as _ <-. reflexivity.
  - rewrite notify_returns by exact H100. run. discriminate.
Qed.

Lemma uploadDocument_throws_table_unchanged_witness :
  exists (e : Exn) (w' : World.t),
    uploadDocument env_rollback_rejects tds_pdf "wall" None world_with_doc = (Thrown e, w')
    /\ World.documents w' = World.documents world_with_doc.
Proof.
  destruct (uploadDocument env_rollback_rejects tds_pdf "wall" None world_with_doc)
    as [[d|e] w'] eqn:Hrun; [vm_compute in Hrun; discriminate Hrun|].
  exists e, w'. split; [reflexivity|].
  exact (uploadDocument_throws_table_unchanged env_rollback_rejects tds_pdf "wall" None
           world_with_doc w' e I Hrun).
Defined.

(** ** Deleting, and deleting what was uploaded *)

(** What [deleteDocument] leaves, in each of its two outcomes. *)
Lemma deleteDocument_outcome (env : Env.t) (id : string) (w : World.t) :
  match deleteDocument env id w with
  | (Thrown _, w') =>
      World.documents w' = World.documents w /\ World.bucket w' = World.bucket w
  | (Returned _, w') =>
      is_Some (World.documents w !! id)
      /\ World.documents w' = delete id (World.documents w)
  end.
Proof.
  unfold deleteDocument, getDocument, try_catch.
  unfold mbind, M_bind, db_select_by_id. cbv beta iota zeta.
  destruct (Env.select_by_id_fault env id) as [[m|e]|]; [run; cbn; auto..|].
  unfold mret, M_ret.
  destruct (World.documents (World.issue (DbSelectById id) w) !! id) as [d|] eqn:Hfound;
    [|run; cbn; auto].
  unfold db_delete. cbv beta iota zeta.
  destruct (Env.delete_fault env id) as [[m|e]|]; [run; cbn; auto..|].
  assert (is_Some (World.documents w !! id)) as Hsome by (eexists; exact Hfound).
  destruct (Js.truthy (Document.url d)); [|cbn; auto].
  destruct (Js.pop (Js.split "/" (Document.url d))) as [fileName|]; [|cbn; auto].
  destruct (Js.truthy fileName); [|cbn; auto].
  unfold storage_remove. cbv beta iota zeta.
  destruct (Env.remove_fault env [fileName]) as [[m|e]|]; cbn; auto.
Qed.

(** X11: [deleteDocument] is all or nothing on the table: when it throws
    (failed lookup, missing document, failed deletion of the row), the
    table and the bucket are exactly as before; when it returns, the
    document was in the table and its row, and no other, is gone - also
    when the removal of the blob fails. *)
Theorem deleteDocument_all_or_nothing (env : Env.t) (id : string) (w : World.t) :
  let (outcome, w') := deleteDocument env id w in
  match outcome with
  | Thrown _ =>
      World.documents w' = World.documents w /\ World.bucket w' = World.bucket w
  | Returned _ =>
      is_Some (World.documents w !! id)
      /\ World.documents w' !! id = None
      /\ forall other, other <> id ->
           World.documents w' !! other = World.documents w !! other
  end.
Proof.
  pose proof (deleteDocument_outcome env id w) as H.
  destruct (deleteDocument env id w) as [[[]|e] w']; [|exact H].
  destruct H as [Hsome ->]. split; [exact Hsome|].
  split; [apply lookup_delete_eq|].
  intros other Hne. apply lookup_delete_ne. congruence.
Qed.

(** X12: after [deleteDocument] has returned for an id, getting the
    document by that id returns [null], and deleting it again throws
    "Document not found". *)
Theorem deleteDocument_then_getDocument
    (env env' : Env.t) (id : string) (w w1 : World.t) :
  deleteDocument env id w = (Returned tt, w1) ->
  Env.select_by_id_fault env' id = None ->
  fst (getDocument env' id w1) = Returned None
  /\ fst (deleteDocument env' id w1) = Thrown (Error "Document not found").
Proof.
  intros Hrun Hselect.
  pose proof (deleteDocument_outcome env id w) as H. rewrite Hrun in H.
  destruct H as [_ Hdocs].
  assert (World.documents w1 !! id = None) as Hgone
    by (rewrite Hdocs; apply lookup_delete_eq).
  rewrite getDocument_answered by exact Hselect.
  rewrite deleteDocument_absent by assumption.
  rewrite Hgone. split; reflexivity.
Qed.

Lemma deleteDocument_then_getDocument_witness :
  exists w1,
    deleteDocument env_ok "doc-1" world_with_doc = (Returned tt, w1)
    /\ fst (getDocument env_ok "doc-1" w1) = Returned None
    /\ fst (deleteDocument env_ok "doc-1" w1) = Thrown (Error "Document not found").
Proof.
  destruct (deleteDocument env_ok "doc-1" world_with_doc)
    as [[[]|e] w1] eqn:Hrun; [|vm_compute in Hrun; discriminate Hrun].
  exists w1. split; [reflexivity|].
  exact (deleteDocument_then_getDocument env_ok env_ok "doc-1" world_with_doc w1
           Hrun eq_refl).
Defined.

Lemma append_not_empty (a : string) (c : ascii) (b : string) : a +:+ String c b <> "".
Proof. destruct a; discriminate. Qed.

Lemma deleteDocument_present_no_locator
    (env : Env.t) (id : string) (w : World.t) (d : Document.t) :
  World.documents w !! id = Some d ->
  Env.select_by_id_fault env id = None ->
  Env.delete_fault env id = None ->
  Document.url d = "" ->
  deleteDocument env id w = (Returned tt, after_row_delete id w).
Proof.
  intros Hfound Hselect Hdelete Hurl. unfold deleteDocument, try_catch.
  unfold mbind at 1. unfold M_bind.
  rewrite getDocument_answered by exact Hselect. rewrite Hfound.
  unfold mbind at 1. unfold M_bind, db_delete. cbv beta iota zeta.
  rewrite Hdelete, Hurl. reflexivity.
Qed.

(** X13: uploading a file and then deleting the record restores both
    stores, when the id and the storage key were not in use, the storage
    key holds no [/], the public locator ends with [/] followed by the
    key, and the lookup, the row deletion and the blob removal succeed. *)
Theorem upload_then_delete_restores
    (env env' : Env.t) (file : File.t) (productType : string)
    (onProgress : option Observer) (w w1 : World.t) (d : Document.t) (base : string) :
  uploadDocument env file productType onProgress w = (Returned d, w1) ->
  World.documents w !! Env.new_id env = None ->
  World.bucket w !! storage_key env file = None ->
  ~ Substring "/" (storage_key env file) ->
  Env.publicUrl env (storage_key env file) = Some (base +:+ "/" +:+ storage_key env file) ->
  Env.select_by_id_fault env' (Document.id d) = None ->
  Env.delete_fault env' (Document.id d) = None ->
  Env.remove_fault env' [storage_key env file] = None ->
  exists w2,
    deleteDocument env' (Document.id d) w1 = (Returned tt, w2)
    /\ World.documents w2 = World.documents w
    /\ World.bucket w2 = World.bucket w
    /\ last (World.calls w2) = Some (StorageRemove [storage_key env file]).
Proof.
  intros Hrun Hfresh_id Hfresh_key Hnoslash Hlocator Hselect Hdelete Hremove.
  pose proof (uploadDocument_persisted _ _ _ _ _ _ _ Hrun) as (Hstored & Hurl & _).
  apply uploadDocument_returned in Hrun as (_ & _ & _ & Hd & Hw1).
  assert (Document.id d = Env.new_id env) as Hid by (rewrite Hd; reflexivity).
  assert (Document.url d = base +:+ "/" +:+ storage_key env file) as Hurl'.
  { rewrite Hurl. unfold upload_url. rewrite Hlocator. unfold Js.or_else.
    assert (Js.truthy (base +:+ "/" +:+ storage_key env file) = true) as ->
      by (apply truthy_spec, append_not_empty).
    reflexivity. }
  assert (Js.truthy (Document.url d) = true) as Htruthy
    by (rewrite Hurl'; apply truthy_spec, append_not_empty).
  assert (Js.pop (Js.split "/" (Document.url d)) = Some (storage_key env file)) as Hpop.
  { destruct (split_pop (Document.url d)) as (segment & Hpop & Hfinal).
    rewrite Hpop. f_equal.
    eapply final_segment_unique; [exact Hfinal|].
    split; [exact Hnoslash|]. right. exists base. exact Hurl'. }
  assert (Js.truthy (storage_key env file) = true) as Hkey.
  { apply truthy_spec. unfold storage_key. intros H.
    destruct (Js.decimal (Env.now env)); discriminate H. }
  rewrite (deleteDocument_present env' (Document.id d) w1 d (storage_key env file)
             Hstored Hselect Hdelete Htruthy Hpop).
  rewrite Hkey, Hremove. cbv zeta.
  eexists. split; [reflexivity|]. rewrite Hw1. cbn.
  split; [|split; [|apply last_snoc]].
  - rewrite Hid. apply delete_insert_id. exact Hfresh_id.
  - apply delete_insert_id. exact Hfresh_key.
Qed.

Lemma upload_then_delete_restores_witness :
  exists (d : Document.t) (w1 w2 : World.t),
    uploadDocument env_ok tds_pdf "wall" None empty_world = (Returned d, w1)
    /\ deleteDocument env_ok (Document.id d) w1 = (Returned tt, w2)
    /\ World.documents w2 = World.documents empty_world
    /\ World.bucket w2 = World.bucket empty_world.
Proof.
  destruct (uploadDocument env_ok tds_pdf "wall" None empty_world)
    as [[d|e] w1] eqn:Hrun; [|vm_compute in Hrun; discriminate Hrun].
  assert (~ Substring "/" (storage_key env_ok tds_pdf)) as Hnoslash
    by (apply includes_false; reflexivity).
  destruct (upload_then_delete_restores env_ok env_ok tds_pdf "wall" None empty_world w1 d
              "https://project.supabase.co/storage/v1/object/public/documents"
              Hrun eq_refl eq_refl Hnoslash eq_refl eq_refl eq_refl eq_refl)
    as (w2 & Hdelete & Hdocs & Hbucket & _).
  exists d, w1, w2. repeat split; assumption.
Defined.

(** X14: a record uploaded while the bucket yielded no public locator has
    an empty [url], so deleting it removes the row and leaves the blob:
    no remove call is issued and the bucket still holds the content under
    the storage key. *)
Theorem upload_without_locator_then_delete
    (env env' : Env.t) (file : File.t) (productType : string)
    (onProgress : option Observer) (w w1 : World.t) (d : Document.t) :
  uploadDocument env file productType onProgress w = (Returned d, w1) ->
  Env.publicUrl env (storage_key env file) = None ->
  Env.select_by_id_fault env' (Document.id d) = None ->
  Env.delete_fault env' (Document.id d) = None ->
  exists w2,
    deleteDocument env' (Document.id d) w1 = (Returned tt, w2)
    /\ World.documents w2 !! Document.id d = None
    /\ World.bucket w2 !! storage_key env file = Some (File.content file)
    /\ World.calls w2 =
       (World.calls w1 ++ [DbSelectById (Document.id d); DbDelete (Document.id d)])%list.
Proof.
  intros Hrun Hlocator Hselect Hdelete.
  pose proof (uploadDocument_persisted _ _ _ _ _ _ _ Hrun) as (Hstored & Hurl & _).
  apply uploadDocument_returned in Hrun as (_ & _ & _ & _ & Hw1).
  assert (Document.url d = "") as Hempty
    by (rewrite Hurl; unfold upload_url; rewrite Hlocator; reflexivity).
  rewrite (deleteDocument_present_no_locator env' (Document.id d) w1 d
             Hstored Hselect Hdelete Hempty).
  eexists. split; [reflexivity|]. cbn.
  split; [apply lookup_delete_eq|]. split.
  - rewrite Hw1. cbn. apply lookup_insert_eq.
  - rewrite <- List.app_assoc. reflexivity.
Qed.

Lemma upload_without_locator_then_delete_witness :
  exists (d : Document.t) (w1 w2 : World.t),
    uploadDocument env_no_locator tds_pdf "wall" None empty_world = (Returned d, w1)
    /\ deleteDocument env_ok (Document.id d) w1 = (Returned tt, w2)
    /\ World.documents w2 !! Document.id d = None
    /\ World.bucket w2 !! stored_key = Some (File.content tds_pdf).
Proof.
  destruct (uploadDocument env_no_locator tds_pdf "wall" None empty_world)
    as [[d|e] w1] eqn:Hrun; [|vm_compute in Hrun; discriminate Hrun].
  destruct (upload_without_locator_then_delete env_no_locator env_ok tds_pdf "wall" None
              empty_world w1 d Hrun eq_refl eq_refl eq_refl)
    as (w2 & Hdelete & Hrow & Hblob & _).
  exists d, w1, w2. repeat split; assumption.
Defined.

(** ** The batch export *)

(** X15: the export reads and never writes: whatever the list query and
    the fetches do, and whether it returns or throws, the table and the
    bucket are exactly as before. *)
Theorem getAllDocumentsWithData_read_only (env : Env.t) (w : World.t) :
  let (outcome, w') := getAllDocumentsWithData env w in
  World.documents w' = World.documents w /\ World.bucket w' = World.bucket w.
Proof.
  unfold getAllDocumentsWithData, getAllDocuments, try_catch.
  unfold mbind, M_bind, db_select_all. cbv beta iota zeta.
  destruct (Env.select_fault env) as [[m|e]|]; [run; cbn; auto..|].
  unfold mret, M_ret.
  destruct (export_from_spec env
              (newest_first (snd <$> map_to_list (World.documents w))) 0 []
              (World.issue DbSelectAll w)) as (w' & Hrun & _ & Hdocs & Hbucket).
  cbn in Hrun |- *. rewrite Hrun. split; assumption.
Qed.

(** X16: when the list query fails, the export throws its error without
    issuing any fetch, after logging it twice: once as a failure to load
    the documents, once as a failure of the export. *)
Theorem getAllDocumentsWithData_list_failure
    (env : Env.t) (w : World.t) (fault : Fault) :
  Env.select_fault env = Some fault ->
  exists w',
    getAllDocumentsWithData env w = (Thrown (thrown_for fault), w')
    /\ World.calls w' = (World.calls w ++ [DbSelectAll])%list
    /\ World.console w' =
       (World.console w ++
        [("Failed to load documents:", thrown_for fault);
         ("Failed to get documents with data:", thrown_for fault)])%list.
Proof.
  intros Hselect.
  unfold getAllDocumentsWithData, getAllDocuments, try_catch.
  unfold mbind, M_bind, db_select_all. cbv beta iota zeta. rewrite Hselect.
  destruct fault as [message|e]; run; cbn; eexists; split; try reflexivity;
    cbn; rewrite <- List.app_assoc; split; reflexivity.
Qed.

Lemma getAllDocumentsWithData_list_failure_witness :
  exists w',
    getAllDocumentsWithData (env_failing None None (Some (Refuse "permission denied")))
      world_with_two = (Thrown (Error "permission denied"), w')
    /\ World.calls w' = [DbSelectAll].
Proof.
  destruct (getAllDocumentsWithData_list_failure
              (env_failing None None (Some (Refuse "permission denied")))
              world_with_two (Refuse "permission denied") eq_refl)
    as (w' & Hrun & Hcalls & _).
  exists w'. split; [exact Hrun | exact Hcalls].
Defined.

Lemma entries_from_sublist (env : Env.t) (documents : list Document.t) (i : nat) :
  doc <$> entries_from env i documents `sublist_of` documents.
Proof.
  revert i. induction documents as [|d rest IH]; intros i; [constructor|].
  cbn [entries_from]. rewrite fmap_app. unfold entry.
  destruct (has_locator d); [|apply sublist_cons, IH].
  destruct (fetched env i d) as [m|] eqn:Hfetched; [|apply sublist_cons, IH].
  apply fetched_doc in Hfetched. cbn. rewrite Hfetched. apply sublist_skip, IH.
Qed.

(** X17: the documents of the entries the export returns come in the
    order of the list query (newest first), each stored document at most
    once: they form a sublist of the listed documents, and there are no
    more of them than documents with a locator. *)
Theorem getAllDocumentsWithData_order (env : Env.t) (w : World.t) :
  Env.select_fault env = None ->
  exists results w',
    getAllDocumentsWithData env w = (Returned results, w')
    /\ doc <$> results `sublist_of` stored_documents w
    /\ (length results + unlocated (stored_documents w) <= size (World.documents w))%nat.
Proof.
  intros Hselect.
  destruct (getAllDocumentsWithData_spec env w Hselect) as (w' & Hrun & _).
  eexists. exists w'. split; [exact Hrun|].
  split; [apply entries_from_sublist|].
  pose proof (entries_from_length env (stored_documents w) 0) as Hlen.
  rewrite stored_documents_length in Hlen. lia.
Qed.

Lemma getAllDocumentsWithData_order_witness :
  exists results w',
    getAllDocumentsWithData env_first_fetch_only world_with_two = (Returned results, w')
    /\ doc <$> results `sublist_of` [later_doc; stored_doc].
Proof.
  destruct (getAllDocumentsWithData_order env_first_fetch_only world_with_two eq_refl)
    as (results & w' & Hrun & Hsub & _).
  exists results, w'. split; [exact Hrun|].
  replace [later_doc; stored_doc] with (stored_documents world_with_two)
    by (vm_compute; reflexivity).
  exact Hsub.
Defined.

Lemma export_from_all_not_ok (env : Env.t) (documents : list Document.t) :
  forall (i : nat) (results : list Materialized) (w : World.t),
  (forall j d, documents !! j = Some d -> has_locator d = true ->
     exists body, Env.fetch env (i + j) (Document.url d) = FetchResponse false body) ->
  exists w',
    export_from env i documents results w = (Returned results, w')
    /\ World.console w' = World.console w.
Proof.
  induction documents as [|d rest IH]; intros i results w Hnot_ok.
  - exists w. split; reflexivity.
  - cbn [export_from]. unfold mbind, M_bind.
    assert (exists w1, export_one env i d results w = (Returned results, w1)
                       /\ World.console w1 = World.console w) as (w1 & Hone & Hconsole1).
    { unfold export_one, try_catch. fold (has_locator d).
      destruct (has_locator d) eqn:Hloc; [|eexists; split; reflexivity].
      destruct (Hnot_ok 0%nat d eq_refl Hloc) as [body Hfetch].
      rewrite Nat.add_0_r in Hfetch.
      unfold mbind, M_bind, http_fetch. cbv beta iota zeta. rewrite Hfetch.
      eexists; split; reflexivity. }
    rewrite Hone.
    destruct (IH (S i) results w1) as (w' & Hrest & Hconsole).
    { intros j d' Hj Hloc. rewrite Nat.add_succ_l, <- Nat.add_succ_r.
      apply (Hnot_ok (S j) d' Hj Hloc). }
    exists w'. split; [exact Hrest | congruence].
Qed.

(** X18: when every fetch is answered with a response that is not [ok],
    the export returns the empty list and logs nothing: the caller cannot
    tell this outcome from that of an empty table. *)
Theorem getAllDocumentsWithData_silent_failure (env : Env.t) (w : World.t) :
  Env.select_fault env = None ->
  (forall i url, exists body, Env.fetch env i url = FetchResponse false body) ->
  exists w',
    getAllDocumentsWithData env w = (Returned [], w')
    /\ World.console w' = World.console w.
Proof.
  intros Hselect Hnot_ok.
  unfold getAllDocumentsWithData, try_catch.
  unfold mbind, M_bind. rewrite getAllDocuments_answered by exact Hselect.
  destruct (export_from_all_not_ok env (stored_documents w) 0 []
              (World.issue DbSelectAll w)) as (w' & Hrun & Hconsole).
  { intros j d _ _. apply Hnot_ok. }
  rewrite Hrun. exists w'. split; [reflexivity | exact Hconsole].
Qed.

Lemma getAllDocumentsWithData_silent_failure_witness :
  size (World.documents world_with_two) = 2%nat
  /\ exists w',
       getAllDocumentsWithData env_not_found world_with_two = (Returned [], w')
       /\ World.console w' = [].
Proof.
  split; [vm_compute; reflexivity|].
  apply (getAllDocumentsWithData_silent_failure env_not_found world_with_two eq_refl).
  intros i url. eexists. reflexivity.
Defined.

(** ** Splitting at a separator: the payload and the storage key *)

Lemma no_sep_nil (c : ascii) : ~ Substring (String c "") "".
Proof. intros ([|] & b & H); discriminate H. Qed.

Lemma no_sep_cons (c a : ascii) (s : string) :
  a <> c -> ~ Substring (String c "") s -> ~ Substring (String c "") (String a s).
Proof.
  intros Ha Hs ([|x pre] & post & H).
  - rewrite append_nil, append_cons in H. congruence.
  - rewrite append_cons in H. apply Hs. exists pre, post. congruence.
Qed.

Lemma no_sep_inv (c a : ascii) (s : string) :
  ~ Substring (String c "") (String a s) ->
  a <> c /\ ~ Substring (String c "") s.
Proof.
  intros H. split.
  - intros ->. apply H. exists "", s. reflexivity.
  - intros (pre & post & ->). apply H. exists (String a pre), post. reflexivity.
Qed.

Lemma split_no_sep (c : ascii) (s : string) :
  ~ Substring (String c "") s -> Js.split c s = [s].
Proof.
  induction s as [|a s IH]; intros H; [reflexivity|].
  apply no_sep_inv in H as [Ha Hs]. cbn [Js.split].
  destruct (Ascii.eqb_spec a c) as [->|_]; [contradiction|].
  rewrite (IH Hs). reflexivity.
Qed.

Lemma split_at_sep (c : ascii) (head rest : string) :
  ~ Substring (String c "") head ->
  Js.split c (head +:+ String c rest) = head :: Js.split c rest.
Proof.
  induction head as [|a head IH]; intros H.
  - rewrite append_nil. cbn [Js.split]. rewrite Ascii.eqb_refl. reflexivity.
  - apply no_sep_inv in H as [Ha Hhead]. rewrite append_cons. cbn [Js.split].
    destruct (Ascii.eqb_spec a c) as [->|_]; [contradiction|].
    rewrite (IH Hhead). reflexivity.
Qed.

(** X19: the payload of an entry is what follows the comma of the data
    URL the reader yields, when the URL has exactly one comma; a result
    with no comma gives an entry whose payload is undefined. *)
Theorem payload_of_data_url (header body : string) :
  ~ Substring "," header ->
  ~ Substring "," body ->
  payload_of (header +:+ "," +:+ body) = Some body
  /\ payload_of header = None.
Proof.
  intros Hheader Hbody. unfold payload_of. split.
  - change (header +:+ "," +:+ body) with (header +:+ String "," body).
    rewrite split_at_sep by exact Hheader.
    rewrite split_no_sep by exact Hbody. reflexivity.
  - rewrite split_no_sep by exact Hheader. reflexivity.
Qed.

Lemma payload_of_data_url_witness :
  payload_of "data:application/pdf;base64,JVBERi0=" = Some "JVBERi0=".
Proof.
  apply (payload_of_data_url "data:application/pdf;base64" "JVBERi0=");
    apply includes_false; reflexivity.
Defined.

Lemma decimal_digits (d : Decimal.uint) :
  ~ Substring "-" (NilEmpty.string_of_uint d).
Proof.
  induction d; cbn [NilEmpty.string_of_uint];
    [apply no_sep_nil | apply no_sep_cons; [discriminate | assumption]..].
Qed.

Lemma decimal_injective (m n : N) : Js.decimal m = Js.decimal n -> m = n.
Proof.
  unfold Js.decimal. intros H.
  apply (f_equal NilEmpty.uint_of_string) in H.
  rewrite !NilEmpty.usu in H. injection H as H.
  apply (f_equal N.of_uint) in H. rewrite !DecimalN.Unsigned.of_to in H. exact H.
Qed.

Lemma first_sep_unique (c : ascii) (a b x y : string) :
  ~ Substring (String c "") a -> ~ Substring (String c "") b ->
  a +:+ String c x = b +:+ String c y -> a = b.
Proof.
  revert b. induction a as [|ca a IH]; intros [|cb b] Ha Hb H;
    repeat (rewrite append_cons in H || rewrite append_nil in H).
  - reflexivity.
  - exfalso. apply no_sep_inv in Hb as [Hb _]. congruence.
  - exfalso. apply no_sep_inv in Ha as [Ha _]. congruence.
  - apply no_sep_inv in Ha as [_ Ha]. apply no_sep_inv in Hb as [_ Hb].
    injection H as -> H. f_equal. exact (IH b Ha Hb H).
Qed.

(** Equal storage keys were built at the same clock reading. *)
Lemma storage_key_clock (env1 env2 : Env.t) (file1 file2 : File.t) :
  storage_key env1 file1 = storage_key env2 file2 -> Env.now env1 = Env.now env2.
Proof.
  intros Hkey. apply decimal_injective.
  unfold storage_key in Hkey.
  eapply (first_sep_unique "-"); [apply decimal_digits | apply decimal_digits | exact Hkey].
Qed.

(** X20: two uploads made at different clock readings get different
    storage keys, whatever their files and random suffixes are: the key
    starts with the decimal digits of the clock, up to its first [-]. *)
Theorem storage_key_distinct (env1 env2 : Env.t) (file1 file2 : File.t) :
  Env.now env1 <> Env.now env2 ->
  storage_key env1 file1 <> storage_key env2 file2.
Proof.
  intros Hnow Hkey. apply Hnow. eapply storage_key_clock. exact Hkey.
Qed.

Lemma storage_key_distinct_witness :
  storage_key (env_at 1700000000000 "doc-1") tds_pdf
  <> storage_key (env_at 1700000000001 "doc-2") tds_pdf.
Proof.
  apply (storage_key_distinct (env_at 1700000000000 "doc-1") (env_at 1700000000001 "doc-2")
           tds_pdf tds_pdf).
  discriminate.
Defined.

(** ** Listing what was uploaded *)

Lemma insert_newest_first_In (x d : Document.t) (sorted : list Document.t) :
  In x (insert_newest_first d sorted) <-> x = d \/ In x sorted.
Proof.
  induction sorted as [|d' rest IH]; cbn.
  - intuition congruence.
  - destruct (created_before d d'); cbn; rewrite ?IH; intuition congruence.
Qed.

Lemma newest_first_In (x : Document.t) (rows : list Document.t) :
  In x (newest_first rows) <-> In x rows.
Proof.
  induction rows as [|d rows IH]; [reflexivity|].
  change (newest_first (d :: rows)) with (insert_newest_first d (newest_first rows)).
  rewrite insert_newest_first_In, IH. cbn. intuition congruence.
Qed.

Lemma stored_documents_In (w : World.t) (d : Document.t) :
  In d (stored_documents w) <-> exists id, World.documents w !! id = Some d.
Proof.
  unfold stored_documents.
  rewrite newest_first_In, <- list_elem_of_In, list_elem_of_fmap. split.
  - intros ([id d'] & -> & Hin). exists id. apply elem_of_map_to_list. exact Hin.
  - intros [id Hid]. exists (id, d). split; [reflexivity|].
    apply elem_of_map_to_list. exact Hid.
Qed.

(** X21: after a returned upload, the list of all documents holds the
    new record; when the assigned id was not in use, the list is one
    document longer than the table was, and every document listed is the
    new record or a row the table already held. *)
Theorem upload_then_getAllDocuments
    (env env' : Env.t) (file : File.t) (productType : string)
    (onProgress : option Observer) (w w1 : World.t) (d : Document.t) :
  uploadDocument env file productType onProgress w = (Returned d, w1) ->
  Env.select_fault env' = None ->
  World.documents w !! Document.id d = None ->
  exists documents w2,
    getAllDocuments env' w1 = (Returned documents, w2)
    /\ In d documents
    /\ length documents = S (size (World.documents w))
    /\ forall other, In other documents ->
         other = d \/ exists id, World.documents w !! id = Some other.
Proof.
  intros Hrun Hselect Hfresh.
  pose proof (uploadDocument_persisted _ _ _ _ _ _ _ Hrun) as (Hstored & _).
  apply uploadDocument_returned in Hrun as (_ & _ & _ & Hd & Hw1).
  assert (World.documents w1 = <[Document.id d := d]> (World.documents w)) as Hdocs.
  { rewrite Hw1. cbn. rewrite Hd at 2. reflexivity. }
  exists (stored_documents w1), (World.issue DbSelectAll w1).
  split; [apply getAllDocuments_answered; exact Hselect|].
  split; [apply stored_documents_In; eauto|].
  split.
  - rewrite stored_documents_length, Hdocs. apply map_size_insert_None. exact Hfresh.
  - intros other Hother. apply stored_documents_In in Hother as [id Hid].
    rewrite Hdocs in Hid.
    destruct (decide (Document.id d = id)) as [<-|Hne].
    + rewrite lookup_insert_eq in Hid. left. congruence.
    + rewrite lookup_insert_ne in Hid by exact Hne. right. eauto.
Qed.

Lemma upload_then_getAllDocuments_witness :
  exists (d : Document.t) (w1 : World.t) documents w2,
    uploadDocument (env_at 1700000000001 "doc-2") tds_pdf "wall" None empty_world = (Returned d, w1)
    /\ getAllDocuments env_ok w1 = (Returned documents, w2)
    /\ In d documents
    /\ length documents = 1%nat.
Proof.
  destruct (uploadDocument (env_at 1700000000001 "doc-2") tds_pdf "wall" None empty_world)
    as [[d|e] w1] eqn:Hrun; [|vm_compute in Hrun; discriminate Hrun].
  assert (World.documents empty_world !! Document.id d = None) as Hfresh
    by apply lookup_empty.
  destruct (upload_then_getAllDocuments (env_at 1700000000001 "doc-2") env_ok tds_pdf "wall" None
              empty_world w1 d Hrun eq_refl Hfresh)
    as (documents & w2 & Hlist & Hin & Hlen & _).
  exists d, w1, documents, w2. repeat split; assumption.
Defined.

(** ** Rejected and repeated uploads *)

(** X22: a file whose media type is not [application/pdf] is rejected
    with "File must be a PDF document" whatever its size and content are,
    and its upload issues no backend call and leaves both stores as they
    were. *)
Theorem uploadDocument_wrong_media_type
    (env : Env.t) (file : File.t) (productType : string)
    (onProgress : option Observer) (w : World.t) :
  File.type file <> "application/pdf" ->
  exists w',
    uploadDocument env file productType onProgress w =
    (Thrown (Error "File must be a PDF document"), w')
    /\ World.calls w' = World.calls w
    /\ World.documents w' = World.documents w
    /\ World.bucket w' = World.bucket w.
Proof.
  intros Htype. pose proof (validatePDF_wrong_type file Htype) as Hverdict.
  assert (valid (validatePDF file) = false) as Hinvalid by (rewrite Hverdict; reflexivity).
  destruct (uploadDocument_invalid env file productType onProgress w Hinvalid)
    as (reason & Hverdict' & ->).
  rewrite Hverdict in Hverdict'. injection Hverdict' as <-.
  eexists. repeat split.
Qed.

Lemma uploadDocument_wrong_media_type_witness :
  File.type notes_txt <> "application/pdf"
  /\ exists w',
       uploadDocument env_ok notes_txt "wall" None world_with_doc =
       (Thrown (Error "File must be a PDF document"), w')
       /\ World.calls w' = World.calls world_with_doc.
Proof.
  assert (File.type notes_txt <> "application/pdf") as Htype by discriminate.
  split; [exact Htype|].
  destruct (uploadDocument_wrong_media_type env_ok notes_txt "wall" None world_with_doc Htype)
    as (w' & Hrun & Hcalls & _).
  exists w'. split; [exact Hrun | exact Hcalls].
Defined.

(** X23: two uploads in a row, made at different clock readings and
    assigned different ids, do not interfere, even for the same file: the
    table holds both records and the bucket both blobs, each under its
    own storage key. *)
Theorem uploadDocument_twice
    (env1 env2 : Env.t) (file1 file2 : File.t) (productType1 productType2 : string)
    (onProgress1 onProgress2 : option Observer) (w w1 w2 : World.t)
    (d1 d2 : Document.t) :
  uploadDocument env1 file1 productType1 onProgress1 w = (Returned d1, w1) ->
  uploadDocument env2 file2 productType2 onProgress2 w1 = (Returned d2, w2) ->
  Env.now env1 <> Env.now env2 ->
  Env.new_id env1 <> Env.new_id env2 ->
  World.documents w2 !! Document.id d1 = Some d1
  /\ World.documents w2 !! Document.id d2 = Some d2
  /\ Document.id d1 <> Document.id d2
  /\ storage_key env1 file1 <> storage_key env2 file2
  /\ World.bucket w2 !! storage_key env1 file1 = Some (File.content file1)
  /\ World.bucket w2 !! storage_key env2 file2 = Some (File.content file2).
Proof.
  intros Hrun1 Hrun2 Hnow Hid.
  pose proof (uploadDocument_persisted _ _ _ _ _ _ _ Hrun1) as (Hstored1 & _).
  pose proof (uploadDocument_persisted _ _ _ _ _ _ _ Hrun2) as (Hstored2 & _).
  apply uploadDocument_returned in Hrun1 as (_ & _ & _ & Hd1 & Hw1).
  apply uploadDocument_returned in Hrun2 as (_ & _ & _ & Hd2 & Hw2).
  assert (Document.id d1 = Env.new_id env1) as Hid1 by (rewrite Hd1; reflexivity).
  assert (Document.id d2 = Env.new_id env2) as Hid2 by (rewrite Hd2; reflexivity).
  assert (storage_key env1 file1 <> storage_key env2 file2) as Hkeys
    by (intros Hkey; apply Hnow; eapply storage_key_clock; exact Hkey).
  split; [|split; [exact Hstored2|split; [congruence|split; [exact Hkeys|split]]]].
  - rewrite Hw2. cbn. rewrite lookup_insert_ne by congruence. exact Hstored1.
  - rewrite Hw2. cbn. rewrite lookup_insert_ne by (intros H; apply Hkeys; congruence).
    rewrite Hw1. cbn. apply lookup_insert_eq.
  - rewrite Hw2. cbn. apply lookup_insert_eq.
Qed.

Lemma uploadDocument_twice_witness :
  exists (d1 d2 : Document.t) (w1 w2 : World.t),
    uploadDocument env_first_fetch_only tds_pdf "wall" None world_with_draft = (Returned d1, w1)
    /\ uploadDocument (env_at 1700000000001 "doc-2") tds_pdf "wall" None w1 = (Returned d2, w2)
    /\ World.documents w2 !! Document.id d1 = Some d1
    /\ World.documents w2 !! Document.id d2 = Some d2.
Proof.
  destruct (uploadDocument env_first_fetch_only tds_pdf "wall" None world_with_draft)
    as [[d1|e] w1] eqn:Hrun1; [|vm_compute in Hrun1; discriminate Hrun1].
  destruct (uploadDocument (env_at 1700000000001 "doc-2") tds_pdf "wall" None w1)
    as [[d2|e] w2] eqn:Hrun2.
  2:{ exfalso. revert Hrun2. unfold uploadDocument, try_catch, mbind, M_bind.
      vm_compute. discriminate. }
  exists d1, d2, w1, w2. split; [reflexivity|]. split; [exact Hrun2|].
  assert (Env.now env_first_fetch_only <> Env.now (env_at 1700000000001 "doc-2")) as Hnow
    by discriminate.
  assert (Env.new_id env_first_fetch_only <> Env.new_id (env_at 1700000000001 "doc-2")) as Hid
    by discriminate.
  destruct (uploadDocument_twice _ _ _ _ _ _ _ _ _ _ _ _ _ Hrun1 Hrun2 Hnow Hid)
    as (Hfirst & Hsecond & _).
  split; [exact Hfirst | exact Hsecond].
Defined.

(** ** Listing by product type *)

Lemma getDocumentsByProductType_answered (productType : string) (s : Session.t) :
  getDocumentsByProductType None productType s =
  (Returned (newest_first
               (filter (fun d => Document.product_type d = productType)
                  (snd <$> map_to_list (World.documents (Session.world s))))),
   Session.issue (DbSelectByProductType productType) s).
Proof. reflexivity. Qed.

Lemma listed_by_product_type (productType : string) (s : Session.t) (d : Document.t) :
  In d (newest_first
          (filter (fun d => Document.product_type d = productType)
             (snd <$> map_to_list (World.documents (Session.world s)))))
  <-> In d (stored_documents (Session.world s)) /\ Document.product_type d = productType.
Proof.
  unfold stored_documents.
  rewrite !newest_first_In, <- !list_elem_of_In, list_elem_of_filter. tauto.
Qed.

(** X24: when both queries are answered, [getDocumentsByProductType]
    returns exactly the documents of [getAllDocuments] that have the
    product type asked for, and leaves the table and the bucket as they
    were; when its query fails it throws the error after logging it. *)
Theorem getDocumentsByProductType_filters
    (env : Env.t) (fault : option Fault) (productType : string) (s : Session.t) :
  Env.select_fault env = None ->
  let (outcome, s') := getDocumentsByProductType fault productType s in
  Session.world s' = match fault with
                     | None => Session.world s
                     | Some f => World.print "Failed to load documents:" (thrown_for f)
                                   (Session.world s)
                     end
  /\ match fault with
     | Some f => outcome = Thrown (thrown_for f)
     | None =>
         exists documents all w',
           outcome = Returned documents
           /\ getAllDocuments env (Session.world s) = (Returned all, w')
           /\ forall d, In d documents <->
                In d all /\ Document.product_type d = productType
     end.
Proof.
  intros Hselect. destruct fault as [[message|e]|].
  - cbn. split; reflexivity.
  - cbn. split; reflexivity.
  - rewrite getDocumentsByProductType_answered. split; [reflexivity|].
    eexists. eexists. eexists. split; [reflexivity|].
    split; [apply getAllDocuments_answered; exact Hselect|].
    intros d. apply listed_by_product_type.
Qed.

Lemma getDocumentsByProductType_filters_witness :
  exists documents all s' w',
    getDocumentsByProductType None "structural-floor" (Session.mk world_with_draft []) =
    (Returned documents, s')
    /\ getAllDocuments env_ok world_with_draft = (Returned all, w')
    /\ forall d, In d documents <->
         In d all /\ Document.product_type d = "structural-floor".
Proof.
  pose proof (getDocumentsByProductType_filters env_ok None "structural-floor"
                (Session.mk world_with_draft []) eq_refl) as H.
  destruct (getDocumentsByProductType None "structural-floor" (Session.mk world_with_draft []))
    as [outcome s'].
  destruct H as (_ & documents & all & w' & -> & Hall & Hfilter).
  exists documents, all, s', w'. split; [reflexivity|]. split; [exact Hall | exact Hfilter].
Defined.

(** X25: after a returned upload, the list for the product type the file
    was uploaded for holds the new record, and the list for any other
    product type does not. *)
Theorem upload_then_getDocumentsByProductType
    (env : Env.t) (file : File.t) (productType other : string)
    (onProgress : option Observer) (w w1 : World.t) (d : Document.t)
    (queries : list FilteredQuery) :
  uploadDocument env file productType onProgress w = (Returned d, w1) ->
  other <> productType ->
  (exists documents s',
     getDocumentsByProductType None productType (Session.mk w1 queries) =
     (Returned documents, s')
     /\ In d documents)
  /\ (exists documents s',
        getDocumentsByProductType None other (Session.mk w1 queries) =
        (Returned documents, s')
        /\ ~ In d documents).
Proof.
  intros Hrun Hother.
  pose proof (uploadDocument_persisted _ _ _ _ _ _ _ Hrun) as (Hstored & _).
  apply uploadDocument_returned in Hrun as (_ & _ & _ & Hd & _).
  assert (Document.product_type d = productType) as Htype by (rewrite Hd; reflexivity).
  split; eexists; eexists; (split; [apply getDocumentsByProductType_answered|]).
  - apply listed_by_product_type. split; [|exact Htype].
    apply stored_documents_In. eauto.
  - intros Hin. apply listed_by_product_type in Hin as [_ Hin]. congruence.
Qed.

Lemma upload_then_getDocumentsByProductType_witness :
  exists (d : Document.t) (w1 : World.t) documents s',
    uploadDocument env_ok tds_pdf "structural-floor" None empty_world = (Returned d, w1)
    /\ getDocumentsByProductType None "structural-floor" (Session.mk w1 []) =
       (Returned documents, s')
    /\ In d documents.
Proof.
  destruct (uploadDocument env_ok tds_pdf "structural-floor" None empty_world)
    as [[d|e] w1] eqn:Hrun; [|vm_compute in Hrun; discriminate Hrun].
  assert ("wall" <> "structural-floor") as Hother by discriminate.
  destruct (upload_then_getDocumentsByProductType env_ok tds_pdf "structural-floor" "wall"
              None empty_world w1 d [] Hrun Hother)
    as ((documents & s' & Hlist & Hin) & _).
  exists d, w1, documents, s'. repeat split; assumption.
Defined.
